(** * pygraph_algo: the two graph representations of [graph.py]

    A shallow embedding of the classes [Node], [AdjacencySetGraph] and
    [AdjacencyMatrixGraph] of [src/graph.py], and the properties of
    construction, mutation and query that the specification states about them.

    Modelling conventions.
    - Python [int]s (vertex indices, the vertex count, weights, the indegree
      counter) are [Z].
    - The adjacency set takes integer weights.  The adjacency matrix takes a
      Python number, an [int] or a [float], and its cells are the [float64]
      cells of [np.zeros]: binary64 values as the standard library's
      [spec_float] specifies them (precision 53, [emax] 1024).  Assigning an
      [int] to a cell converts it, rounding to nearest even, and raises
      [OverflowError] when the integer is too large for a [float64].
    - A method is a computation over the object it is called on: it takes the
      state of [self] and returns the state [self] is left in together with
      either the value returned or the exception raised.  The state left
      behind by a raise is kept, so that the absence of mutation is a statement
      about it.
    - The source raises [ValueError] at three kinds of sites, which the
      specification names [OutOfBounds], [WeightNotSupported] and
      [SelfLoopError]; the exceptions of the model are these sites, the
      [IndexError] of list and array indexing, the [OverflowError] of the
      conversion of an [int] to a [float64] and the [ValueError] with which
      [np.zeros] refuses a negative dimension. *)

From stdpp Require Import base numbers list list_numbers sorting gmap
  strings pretty.
From Stdlib Require Import Floats.SpecFloat.

Local Open Scope Z_scope.

(** ** Exceptions *)

Inductive exn : Type :=
| OutOfBounds         (* ValueError: vertices out of bounds, cannot access
                         vertex *)
| WeightNotSupported  (* ValueError: an adjacency set cannot represent edge
                         weights, an edge cannot have weight < 1 *)
| SelfLoopError       (* ValueError: the vertex cannot be adjacent to itself *)
| IndexError          (* list or ndarray index out of range *)
| OverflowError       (* int too large to convert to float *)
| NegativeDimensions  (* ValueError of np.zeros on a negative shape *).

(** ** Methods as state-and-exception computations *)

Module Py.

Definition M (S A : Type) : Type := S -> S * (exn + A).

Definition ret {S A : Type} (a : A) : M S A :=
  fun s => (s, inr a).

Definition raise {S A : Type} (e : exn) : M S A :=
  fun s => (s, inl e).

Definition bind {S A B : Type} (m : M S A) (k : A -> M S B) : M S B :=
  fun s =>
    match m s with
    | (s', inr a) => k a s'
    | (s', inl e) => (s', inl e)
    end.

(** Reading an attribute of [self], and assigning to one. *)
Definition gets {S A : Type} (f : S -> A) : M S A :=
  fun s => (s, inr (f s)).

Definition modify {S : Type} (f : S -> S) : M S unit :=
  fun s => (f s, inr tt).

(** [for x in xs: body], the loop's local variable threaded as [acc]. *)
Fixpoint for_each {S A B : Type}
    (xs : list A) (body : A -> B -> M S B) (acc : B) : M S B :=
  match xs with
  | [] => ret acc
  | x :: xs' => bind (body x acc) (fun acc' => for_each xs' body acc')
  end.

(** [range(n)]: empty when [n <= 0]. *)
Definition range (n : Z) : list Z := seqZ 0 n.

(** Indexing of a Python list and of an ndarray axis of length [len]: an
    index in [0, len) is taken as it is, one in [-len, 0) counts from the
    end, any other raises [IndexError]. *)
Definition index (len : nat) (i : Z) : exn + nat :=
  if bool_decide (0 <= i < Z.of_nat len) then inr (Z.to_nat i)
  else if bool_decide (- Z.of_nat len <= i < 0) then inr (Z.to_nat (Z.of_nat len + i))
  else inl IndexError.

(** [a[i]] *)
Definition getitem {A : Type} (a : list A) (i : Z) : exn + A :=
  match index (length a) i with
  | inr k =>
      match a !! k with
      | Some x => inr x
      | None => inl IndexError
      end
  | inl e => inl e
  end.

(** [x in l] *)
Definition contains (x : Z) (l : list Z) : bool := bool_decide (x ∈ l).

(** [sorted(s)] of a set of integers. *)
Definition sorted (s : gset Z) : list Z := merge_sort Z.le (elements s).

(** A [float64]: a binary64 value, [spec_float] at precision 53 and [emax]
    1024.  [0.0], NaN and [1.0]. *)
Definition float64 : Type := spec_float.

Definition fzero : float64 := S754_zero false.
Definition nan : float64 := S754_nan.

Definition fone : float64 := S754_finite false 4503599627370496 (-52).

(** A Python number: an [int] or a [float]. *)
Inductive number : Type :=
| Int (z : Z)
| Float (f : float64).

(** [float(z)]: the [float64] nearest to the integer [z], ties to even;
    [OverflowError] when that is beyond the largest finite [float64]. *)
Definition float_of_int (z : Z) : exn + float64 :=
  match binary_normalize 53 1024 z 0 false with
  | S754_infinity _ => inl OverflowError
  | f => inr f
  end.

(** The value a float64 array cell takes when a number is assigned to it. *)
Definition to_float64 (w : number) : exn + float64 :=
  match w with
  | Int z => float_of_int z
  | Float f => inr f
  end.

(** [w < 1] and [w >= 1] *)
Definition lt_one (w : number) : bool :=
  match w with
  | Int z => z <? 1
  | Float f => SFltb f fone
  end.

Definition ge_one (w : number) : bool :=
  match w with
  | Int z => 1 <=? z
  | Float f => SFleb fone f
  end.

(** [x > 0] and [x >= 1] of a cell *)
Definition gt_zero (x : float64) : bool := SFltb fzero x.

Definition float_ge_one (x : float64) : bool := SFleb fone x.

(** The value of the float [x] is the integer [z]. *)
Definition float_is_int (x : float64) (z : Z) : bool :=
  match x with
  | S754_zero _ => z =? 0
  | S754_finite s m e =>
      let v := if s then Z.neg m else Z.pos m in
      if 0 <=? e then v * 2 ^ e =? z else v =? z * 2 ^ (- e)
  | _ => false
  end.

(** [x == w]: the float [x] and the number [w] have the same value. *)
Definition float_eq (x : float64) (w : number) : bool :=
  match w with
  | Int z => float_is_int x z
  | Float f => SFeqb x f
  end.

(** A float64 cell holds the number [w] exactly: the conversion returns,
    and what it returns has the value of [w]. *)
Definition exactly_representable (w : number) : bool :=
  match to_float64 w with
  | inr x => float_eq x w
  | inl _ => false
  end.

(** [str(i)] of an integer: its decimal numeral. *)
Definition str (i : Z) : string := pretty i.

(** The standard output, one entry per line written.  A method that prints
    runs on its object together with the output written so far. *)
Definition stdout : Type := list string.

(** A method of [self] called where the output is in scope too. *)
Definition with_self {S A : Type} (m : M S A) : M (S * stdout) A :=
  fun '(s, out) => let '(s', r) := m s in ((s', out), r).

(** [print(i, v, sep=sep)]: one line, the two numerals around [sep]. *)
Definition print_sep {S : Type} (sep : string) (i v : Z) : M (S * stdout) unit :=
  fun '(s, out) => ((s, out ++ [str i +:+ sep +:+ str v]), inr tt).

End Py.

Declare Scope py_scope.
Delimit Scope py_scope with py.
Notation "x <- c1 ;; c2" := (Py.bind c1 (fun x => c2))
  (at level 100, c1 at next level, right associativity) : py_scope.
Notation "c1 ;; c2" := (Py.bind c1 (fun _ => c2))
  (at level 100, right associativity) : py_scope.
Local Open Scope py_scope.

(** ** class Node *)

Module Node.

Record t : Type := mk {
  vertexid : Z;
  adjacency_set : gset Z
}.

(** [__init__] *)
Definition init (vertexid : Z) : t :=
  {| vertexid := vertexid; adjacency_set := ∅ |}.

Definition add_edge (vertex : Z) : Py.M t unit :=
  id <- Py.gets vertexid ;;
  if bool_decide (id = vertex) then Py.raise SelfLoopError
  else Py.modify (fun self =>
         {| vertexid := vertexid self;
            adjacency_set := {[vertex]} ∪ adjacency_set self |}).

Definition get_adjacent_vertices : Py.M t (list Z) :=
  Py.gets (fun self => Py.sorted (adjacency_set self)).

End Node.

(** ** class AdjacencySetGraph *)

Module AdjacencySetGraph.

Record t : Type := mk {
  nbvertices : Z;
  directed : bool;
  vertex_list : list Node.t
}.

Definition set_vertex_list (vl : list Node.t) (self : t) : t :=
  {| nbvertices := nbvertices self; directed := directed self;
     vertex_list := vl |}.

(** [__init__]: one [Node(i)] appended per [i] of [range(nbvertices)]. *)
Definition init (nbvertices : Z) (directed : bool) : t :=
  {| nbvertices := nbvertices; directed := directed;
     vertex_list :=
       foldl (fun vl i => vl ++ [Node.init i]) [] (Py.range nbvertices) |}.

(** [self.vertex_list[v].method(...)]: the node object at index [v] runs the
    method and is left, in place, in the state the method leaves it in. *)
Definition at_vertex {A : Type} (v : Z) (method : Py.M Node.t A) : Py.M t A :=
  fun self =>
    match Py.index (length (vertex_list self)) v with
    | inr k =>
        match vertex_list self !! k with
        | Some node =>
            let '(node', r) := method node in
            (set_vertex_list (<[k := node']> (vertex_list self)) self, r)
        | None => (self, inl IndexError)
        end
    | inl e => (self, inl e)
    end.

Definition add_edge (v1 v2 : Z) (weight : Z) : Py.M t unit :=
  n <- Py.gets nbvertices ;;
  if (v1 >=? n) || (v2 >=? n) || (v1 <? 0) || (v2 <? 0)
  then Py.raise OutOfBounds
  else
    if negb (weight =? 1) then Py.raise WeightNotSupported
    else
      at_vertex v1 (Node.add_edge v2) ;;
      d <- Py.gets directed ;;
      if bool_decide (d = false) then at_vertex v2 (Node.add_edge v1)
      else Py.ret tt.

Definition get_adjacent_vertices (v : Z) : Py.M t (list Z) :=
  n <- Py.gets nbvertices ;;
  if (v <? 0) || (v >=? n) then Py.raise OutOfBounds
  else at_vertex v Node.get_adjacent_vertices.

Definition get_indegree (v : Z) : Py.M t Z :=
  n <- Py.gets nbvertices ;;
  if (v <? 0) || (v >=? n) then Py.raise OutOfBounds
  else
    n' <- Py.gets nbvertices ;;
    Py.for_each (Py.range n')
      (fun i indegree =>
         adj <- get_adjacent_vertices i ;;
         if Py.contains v adj then Py.ret (indegree + 1)
         else Py.ret indegree)
      0.

Definition get_edge_weight (v1 v2 : Z) : Py.M t Z :=
  Py.ret 1.

Definition display : Py.M (t * Py.stdout) unit :=
  n <- Py.with_self (Py.gets nbvertices) ;;
  Py.for_each (Py.range n)
    (fun i _ =>
       adj <- Py.with_self (get_adjacent_vertices i) ;;
       Py.for_each adj (fun v _ => Py.print_sep "-->" i v) tt)
    tt.

(** The states a caller can bring a graph into: a constructed graph, and
    whatever a call of [add_edge] leaves behind, whether it returned or
    raised.  The queries leave the state as it is. *)
Inductive reachable : t -> Prop :=
| reachable_init (n : Z) (d : bool) : reachable (init n d)
| reachable_add_edge (g : t) (v1 v2 weight : Z) :
    reachable g -> reachable (add_edge v1 v2 weight g).1.

End AdjacencySetGraph.

(** ** class AdjacencyMatrixGraph *)

Module AdjacencyMatrixGraph.

Record t : Type := mk {
  nbvertices : Z;
  directed : bool;
  matrix : list (list Py.float64)
}.

Definition set_matrix (m : list (list Py.float64)) (self : t) : t :=
  {| nbvertices := nbvertices self; directed := directed self;
     matrix := m |}.

(** [np.zeros((rows, cols))] *)
Definition zeros (rows cols : Z) : exn + list (list Py.float64) :=
  if (rows <? 0) || (cols <? 0) then inl NegativeDimensions
  else inr (replicate (Z.to_nat rows) (replicate (Z.to_nat cols) Py.fzero)).

(** [__init__] *)
Definition init (nbvertices : Z) (directed : bool) : exn + t :=
  match zeros nbvertices nbvertices with
  | inr m =>
      inr {| nbvertices := nbvertices; directed := directed; matrix := m |}
  | inl e => inl e
  end.

(** [self.matrix[v1][v2]] *)
Definition matrix_get (v1 v2 : Z) : Py.M t Py.float64 :=
  fun self =>
    (self,
     match Py.getitem (matrix self) v1 with
     | inr row => Py.getitem row v2
     | inl e => inl e
     end).

(** [self.matrix[v1][v2] = weight]: [self.matrix[v1]] is a view of the row,
    and the assignment converts the weight to a [float64] and writes it
    through the view.  Nothing is written when the conversion raises. *)
Definition matrix_set (v1 v2 : Z) (weight : Py.number) : Py.M t unit :=
  fun self =>
    match Py.index (length (matrix self)) v1 with
    | inr k =>
        match matrix self !! k with
        | Some row =>
            match Py.index (length row) v2 with
            | inr k2 =>
                match Py.to_float64 weight with
                | inr x =>
                    (set_matrix (<[k := <[k2 := x]> row]> (matrix self)) self,
                     inr tt)
                | inl e => (self, inl e)
                end
            | inl e => (self, inl e)
            end
        | None => (self, inl IndexError)
        end
    | inl e => (self, inl e)
    end.

Definition add_edge (v1 v2 : Z) (weight : Py.number) : Py.M t unit :=
  n <- Py.gets nbvertices ;;
  if (v1 >=? n) || (v2 >=? n) || (v1 <? 0) || (v2 <? 0)
  then Py.raise OutOfBounds
  else
    if Py.lt_one weight then Py.raise WeightNotSupported
    else
      matrix_set v1 v2 weight ;;
      d <- Py.gets directed ;;
      if bool_decide (d = false) then matrix_set v2 v1 weight
      else Py.ret tt.

Definition get_adjacent_vertices (v : Z) : Py.M t (list Z) :=
  n <- Py.gets nbvertices ;;
  if (v <? 0) || (v >=? n) then Py.raise OutOfBounds
  else
    n' <- Py.gets nbvertices ;;
    Py.for_each (Py.range n')
      (fun i adjacent_vertices =>
         x <- matrix_get v i ;;
         if Py.gt_zero x then Py.ret (adjacent_vertices ++ [i])
         else Py.ret adjacent_vertices)
      [].

Definition get_indegree (v : Z) : Py.M t Z :=
  n <- Py.gets nbvertices ;;
  if (v <? 0) || (v >=? n) then Py.raise OutOfBounds
  else
    n' <- Py.gets nbvertices ;;
    Py.for_each (Py.range n')
      (fun i indegree =>
         x <- matrix_get i v ;;
         if Py.gt_zero x then Py.ret (indegree + 1)
         else Py.ret indegree)
      0.

Definition get_edge_weight (v1 v2 : Z) : Py.M t Py.float64 :=
  matrix_get v1 v2.

Definition display : Py.M (t * Py.stdout) unit :=
  n <- Py.with_self (Py.gets nbvertices) ;;
  Py.for_each (Py.range n)
    (fun i _ =>
       adj <- Py.with_self (get_adjacent_vertices i) ;;
       Py.for_each adj (fun v _ => Py.print_sep "-->" i v) tt)
    tt.

(** The states a caller can bring a graph into: a graph whose construction
    returned, and whatever a call of [add_edge] leaves behind, whether it
    returned or raised.  The queries leave the state as it is. *)
Inductive reachable : t -> Prop :=
| reachable_init (n : Z) (d : bool) (g : t) :
    init n d = inr g -> reachable g
| reachable_add_edge (g : t) (v1 v2 : Z) (weight : Py.number) :
    reachable g -> reachable (add_edge v1 v2 weight g).1.

End AdjacencyMatrixGraph.

(** ** Invariants of the reachable states, and the notions the properties
       are stated with *)

Module Inv.

(** An adjacency-set graph holds one node per vertex, and the node at
    position [k] has identifier [k]. *)
Definition set_wf (g : AdjacencySetGraph.t) : Prop :=
  length (AdjacencySetGraph.vertex_list g)
    = Z.to_nat (AdjacencySetGraph.nbvertices g)
  /\ forall (k : nat) (node : Node.t),
       AdjacencySetGraph.vertex_list g !! k = Some node ->
       Node.vertexid node = Z.of_nat k.

(** The adjacency set stored for vertex [v]. *)
Definition adjacency (g : AdjacencySetGraph.t) (v : Z) : gset Z :=
  match AdjacencySetGraph.vertex_list g !! Z.to_nat v with
  | Some node => Node.adjacency_set node
  | None => ∅
  end.

(** The node [node] once [x] is in its adjacency set, and the graph [g] once
    [x] is in the adjacency set of its vertex [v]. *)
Definition node_with (x : Z) (node : Node.t) : Node.t :=
  {| Node.vertexid := Node.vertexid node;
     Node.adjacency_set := {[x]} ∪ Node.adjacency_set node |}.

Definition link (g : AdjacencySetGraph.t) (v x : Z) : AdjacencySetGraph.t :=
  AdjacencySetGraph.set_vertex_list
    (alter (node_with x) (Z.to_nat v) (AdjacencySetGraph.vertex_list g)) g.

(** An adjacency-matrix graph holds a square matrix of side [nbvertices]. *)
Definition matrix_wf (g : AdjacencyMatrixGraph.t) : Prop :=
  0 <= AdjacencyMatrixGraph.nbvertices g
  /\ length (AdjacencyMatrixGraph.matrix g)
      = Z.to_nat (AdjacencyMatrixGraph.nbvertices g)
  /\ Forall
       (fun row => length row = Z.to_nat (AdjacencyMatrixGraph.nbvertices g))
       (AdjacencyMatrixGraph.matrix g).

(** The cell of row [i] and column [j], for indices within the matrix. *)
Definition cell (g : AdjacencyMatrixGraph.t) (i j : Z) : Py.float64 :=
  match AdjacencyMatrixGraph.matrix g !! Z.to_nat i with
  | Some row => default Py.fzero (row !! Z.to_nat j)
  | None => Py.fzero
  end.

(** The graph [g] once the cell of row [i] and column [j] holds [x]. *)
Definition store (g : AdjacencyMatrixGraph.t) (i j : Z) (x : Py.float64)
    : AdjacencyMatrixGraph.t :=
  AdjacencyMatrixGraph.set_matrix
    (alter (fun row => <[Z.to_nat j := x]> row) (Z.to_nat i)
       (AdjacencyMatrixGraph.matrix g)) g.

(** [v] appears in what [get_adjacent_vertices(u)] returns. *)
Definition appears_in_adjacent {S : Type}
    (get_adjacent_vertices : Z -> Py.M S (list Z)) (g : S) (u v : Z) : bool :=
  match (get_adjacent_vertices u g).2 with
  | inr l => Py.contains v l
  | inl _ => false
  end.

(** The number of vertices [u] of [0, n) such that [v] appears in
    [get_adjacent_vertices(u)]. *)
Definition count_sources {S : Type}
    (get_adjacent_vertices : Z -> Py.M S (list Z)) (g : S) (n v : Z) : Z :=
  Z.of_nat
    (length
       (List.filter
          (fun u => appears_in_adjacent get_adjacent_vertices g u v)
          (Py.range n))).

(** The position an index of [-n, n) denotes on an axis of length [n]. *)
Definition wrap (n i : Z) : Z := if i <? 0 then n + i else i.

End Inv.

(** ** The two representations side by side *)

Module Both.

(** An adjacency-set graph and an adjacency-matrix graph constructed with the
    same arguments and then given the same calls [add_edge(v1, v2)], the
    weight left at its default 1, between distinct vertices. *)
Inductive built_alike : AdjacencySetGraph.t -> AdjacencyMatrixGraph.t -> Prop :=
| alike_init (n : Z) (d : bool) (gm : AdjacencyMatrixGraph.t) :
    AdjacencyMatrixGraph.init n d = inr gm ->
    built_alike (AdjacencySetGraph.init n d) gm
| alike_add_edge (gs : AdjacencySetGraph.t) (gm : AdjacencyMatrixGraph.t)
    (v1 v2 : Z) :
    built_alike gs gm -> v1 <> v2 ->
    built_alike (AdjacencySetGraph.add_edge v1 v2 1 gs).1
                (AdjacencyMatrixGraph.add_edge v1 v2 (Py.Int 1) gm).1.

(** The lines [display] writes for a graph whose [get_adjacent_vertices(i)]
    is [adjacent i]: one per pair, sources ascending, each source's
    destinations in the order of [adjacent]. *)
Definition edge_lines (n : Z) (adjacent : Z -> list Z) : list string :=
  i ← Py.range n; (fun v => Py.str i +:+ "-->" +:+ Py.str v) <$> adjacent i.

(** The list [get_adjacent_vertices(i)] returns on [g], empty when it
    raises. *)
Definition adjacent_of {S : Type}
    (get_adjacent_vertices : Z -> Py.M S (list Z)) (g : S) (i : Z) : list Z :=
  match (get_adjacent_vertices i g).2 with
  | inr l => l
  | inl _ => []
  end.

End Both.

(** ** Concrete graphs *)

Module Demo.

(** The graph [main] constructs: [AdjacencyMatrixGraph(4, directed=True)]. *)
Definition directed_matrix : AdjacencyMatrixGraph.t :=
  {| AdjacencyMatrixGraph.nbvertices := 4;
     AdjacencyMatrixGraph.directed := true;
     AdjacencyMatrixGraph.matrix := replicate 4 (replicate 4 Py.fzero) |}.

(** [AdjacencyMatrixGraph(3)] *)
Definition undirected_matrix : AdjacencyMatrixGraph.t :=
  {| AdjacencyMatrixGraph.nbvertices := 3;
     AdjacencyMatrixGraph.directed := false;
     AdjacencyMatrixGraph.matrix := replicate 3 (replicate 3 Py.fzero) |}.

(** [AdjacencySetGraph(4)] and [AdjacencySetGraph(4, directed=True)] *)
Definition undirected_set : AdjacencySetGraph.t :=
  AdjacencySetGraph.init 4 false.

Definition directed_set : AdjacencySetGraph.t :=
  AdjacencySetGraph.init 4 true.

(** The graph of [main] once its three edges are added. *)
Definition main_graph : AdjacencyMatrixGraph.t :=
  (AdjacencyMatrixGraph.add_edge 2 3 (Py.Int 10)
    (AdjacencyMatrixGraph.add_edge 0 2 (Py.Int 55)
      (AdjacencyMatrixGraph.add_edge 0 1 (Py.Int 43) directed_matrix).1).1).1.

(** An undirected set graph with the edges 0-1 and 3-1. *)
Definition star_set : AdjacencySetGraph.t :=
  (AdjacencySetGraph.add_edge 3 1 1
    (AdjacencySetGraph.add_edge 0 1 1 undirected_set).1).1.

End Demo.

(** * Properties *)

Local Set Warnings "-clear-no-such-hyp".

Ltac py_unfold :=
  unfold Py.bind, Py.gets, Py.ret, Py.raise, Py.modify in *; simpl in *.

(** ** Loops and indexing *)

Lemma for_each_pure {S A B : Type} (xs : list A) (body : A -> B -> Py.M S B)
    (f : A -> B -> B) (s : S) :
  (forall x acc, x ∈ xs -> body x acc s = (s, inr (f x acc))) ->
  forall acc,
    Py.for_each xs body acc s = (s, inr (foldl (fun a x => f x a) acc xs)).
Proof.
  induction xs as [|x xs IH]; intros Hbody acc; simpl.
  - reflexivity.
  - unfold Py.bind. rewrite Hbody by left.
    apply IH. intros y a Hy. apply Hbody. by right.
Qed.

Lemma foldl_count (p : Z -> bool) (xs : list Z) (acc : Z) :
  foldl (fun a x => if p x then a + 1 else a) acc xs
  = acc + Z.of_nat (length (List.filter p xs)).
Proof.
  revert acc. induction xs as [|x xs IH]; intros acc; simpl.
  - lia.
  - rewrite IH. destruct (p x); simpl; lia.
Qed.

Lemma foldl_collect (p : Z -> bool) (xs : list Z) (acc : list Z) :
  foldl (fun a x => if p x then a ++ [x] else a) acc xs
  = acc ++ List.filter p xs.
Proof.
  revert acc. induction xs as [|x xs IH]; intros acc; simpl.
  - by rewrite app_nil_r.
  - rewrite IH. destruct (p x); simpl; [by rewrite <- app_assoc | done].
Qed.

Lemma index_in_range (len : nat) (i : Z) :
  0 <= i < Z.of_nat len -> Py.index len i = inr (Z.to_nat i).
Proof. intros H. unfold Py.index. by rewrite bool_decide_eq_true_2. Qed.

Lemma index_negative (len : nat) (i : Z) :
  - Z.of_nat len <= i < 0 -> Py.index len i = inr (Z.to_nat (Z.of_nat len + i)).
Proof.
  intros H. unfold Py.index.
  rewrite bool_decide_eq_false_2 by lia. by rewrite bool_decide_eq_true_2.
Qed.

Lemma index_outside (len : nat) (i : Z) :
  i < - Z.of_nat len \/ Z.of_nat len <= i -> Py.index len i = inl IndexError.
Proof.
  intros H. unfold Py.index.
  rewrite bool_decide_eq_false_2 by lia. by rewrite bool_decide_eq_false_2 by lia.
Qed.

Lemma index_lt (len : nat) (i : Z) (k : nat) :
  Py.index len i = inr k -> (k < len)%nat.
Proof.
  unfold Py.index. repeat case_bool_decide; intros [= <-]; lia.
Qed.

Lemma sorted_contains (s : gset Z) (x : Z) : x ∈ Py.sorted s <-> x ∈ s.
Proof.
  unfold Py.sorted. rewrite merge_sort_Permutation. apply elem_of_elements.
Qed.

(** ** Conversion of an integer to a float64 *)

Lemma digits2_bounds (p : positive) :
  2 ^ (Z.pos (digits2_pos p) - 1) <= Z.pos p < 2 ^ Z.pos (digits2_pos p).
Proof.
  induction p as [p IH|p IH|]; simpl digits2_pos.
  - rewrite Pos2Z.inj_succ.
    replace (Z.succ (Z.pos (digits2_pos p)) - 1)
      with (Z.succ (Z.pos (digits2_pos p) - 1)) by lia.
    rewrite !Z.pow_succ_r by lia. lia.
  - rewrite Pos2Z.inj_succ.
    replace (Z.succ (Z.pos (digits2_pos p)) - 1)
      with (Z.succ (Z.pos (digits2_pos p) - 1)) by lia.
    rewrite !Z.pow_succ_r by lia. lia.
  - simpl. lia.
Qed.

Lemma digits2_iter_xO (p k : positive) :
  Z.pos (digits2_pos (Pos.iter xO p k)) = Z.pos (digits2_pos p) + Z.pos k.
Proof.
  induction k as [|k IH] using Pos.peano_ind.
  - simpl. lia.
  - rewrite Pos.iter_succ. simpl digits2_pos. lia.
Qed.

Lemma iter_xO_value (p k : positive) :
  Z.pos (Pos.iter xO p k) = Z.pos p * 2 ^ Z.pos k.
Proof.
  induction k as [|k IH] using Pos.peano_ind.
  - simpl. lia.
  - rewrite Pos.iter_succ, Pos2Z.inj_xO, IH, Pos2Z.inj_succ.
    rewrite Z.pow_succ_r by lia. lia.
Qed.

Lemma shr_1_m (mrs : shr_record) :
  0 <= shr_m mrs -> shr_m (shr_1 mrs) = shr_m mrs / 2.
Proof.
  destruct mrs as [[|[p|p|]|p] r s]; cbn [shr_1 shr_m]; intros H; try lia.
  - done.
  - rewrite Pos2Z.inj_xI. apply (Z.div_unique _ _ _ 1); lia.
  - rewrite Pos2Z.inj_xO. apply (Z.div_unique _ _ _ 0); lia.
  - done.
Qed.

Lemma iter_shr_1_m (p : positive) (mrs : shr_record) :
  0 <= shr_m mrs ->
  shr_m (iter_pos shr_1 p mrs) = shr_m mrs / 2 ^ Z.pos p.
Proof.
  revert mrs. induction p as [p IH|p IH|]; intros mrs Hm; simpl iter_pos.
  - assert (0 <= shr_m (shr_1 mrs)) as H1
      by (rewrite shr_1_m by done; apply Z.div_pos; lia).
    assert (0 <= shr_m (iter_pos shr_1 p (shr_1 mrs))) as H2
      by (rewrite IH by done; apply Z.div_pos; lia).
    rewrite IH, IH, shr_1_m by done.
    rewrite !Z.div_div by lia. f_equal.
    rewrite <- Z.pow_add_r, <- Z.pow_succ_r by lia. f_equal. lia.
  - assert (0 <= shr_m (iter_pos shr_1 p mrs)) as H2
      by (rewrite IH by done; apply Z.div_pos; lia).
    rewrite IH, IH by done. rewrite !Z.div_div by lia. f_equal.
    rewrite <- Z.pow_add_r by lia. f_equal. lia.
  - rewrite shr_1_m by done. by rewrite Z.pow_1_r.
Qed.

Lemma shr_fexp_positive (m : positive) (e : Z) :
  -1074 <= e ->
  0 < shr_m (shr_fexp 53 1024 (Z.pos m) e loc_Exact).1
  /\ e <= (shr_fexp 53 1024 (Z.pos m) e loc_Exact).2
  /\ Z.pos (digits2_pos m) + e - 53
     <= (shr_fexp 53 1024 (Z.pos m) e loc_Exact).2.
Proof.
  intros He. unfold shr_fexp, shr, fexp, emin.
  simpl Zdigits2. simpl shr_record_of_loc.
  pose proof (digits2_bounds m) as [Hlo Hhi].
  destruct (Z.max (Z.pos (digits2_pos m) + e - 53) (3 - 1024 - 53) - e)
    as [|p|p] eqn:Hn; simpl; try lia.
  split_and!; try lia.
  rewrite iter_shr_1_m by (simpl; lia). simpl shr_m.
  apply Z.div_str_pos. split; [lia|].
  assert (Z.pos p = Z.pos (digits2_pos m) - 53) as -> by lia.
  etrans; [|exact Hlo]. apply Z.pow_le_mono_r; lia.
Qed.

Lemma round_nearest_even_positive (m : Z) (l : location) :
  0 < m -> 0 < round_nearest_even m l.
Proof.
  intros Hm. unfold round_nearest_even.
  destruct l as [|[]]; try done; [destruct (Z.even m)|]; lia.
Qed.

Lemma binary_round_aux_positive (m : positive) (e : Z) :
  -1074 <= e ->
  binary_round_aux 53 1024 false (Z.pos m) e loc_Exact = S754_infinity false
  \/ exists m' e',
       binary_round_aux 53 1024 false (Z.pos m) e loc_Exact
         = S754_finite false m' e'
       /\ Z.pos (digits2_pos m) + e - 53 <= e'.
Proof.
  intros He. unfold binary_round_aux.
  destruct (shr_fexp_positive m e He) as (Hm1 & He1 & Hd1).
  destruct (shr_fexp 53 1024 (Z.pos m) e loc_Exact) as [mrs1 e1]. simpl in *.
  pose proof (round_nearest_even_positive (shr_m mrs1)
                (loc_of_shr_record mrs1) Hm1) as Hr.
  destruct (round_nearest_even (shr_m mrs1) (loc_of_shr_record mrs1))
    as [|m1|m1]; try lia.
  destruct (shr_fexp_positive m1 e1) as (Hm2 & He2 & Hd2); [lia|].
  destruct (shr_fexp 53 1024 (Z.pos m1) e1 loc_Exact) as [mrs2 e2]. simpl in *.
  destruct (shr_m mrs2) as [|m2|m2]; try lia.
  destruct (e2 <=? 1024 - 53); [|by left].
  right. exists m2, e2. split; [done|lia].
Qed.

Lemma binary_normalize_positive (z : Z) :
  1 <= z ->
  binary_normalize 53 1024 z 0 false = S754_infinity false
  \/ exists m e,
       binary_normalize 53 1024 z 0 false = S754_finite false m e
       /\ Zdigits2 z - 53 <= e.
Proof.
  intros Hz. destruct z as [|p|p]; try lia. simpl Zdigits2.
  unfold binary_normalize, binary_round, shl_align, fexp, emin.
  destruct (Z.max (Z.pos (digits2_pos p) + 0 - 53) (3 - 1024 - 53) - 0)
    as [|k|k] eqn:Hk.
  - destruct (binary_round_aux_positive p 0) as [Hinf|(m & e & Heq & He)];
      [lia|by left|].
    right. exists m, e. split; [done|lia].
  - destruct (binary_round_aux_positive p 0) as [Hinf|(m & e & Heq & He)];
      [lia|by left|].
    right. exists m, e. split; [done|lia].
  - destruct (binary_round_aux_positive (Pos.iter xO p k)
                (Z.max (Z.pos (digits2_pos p) + 0 - 53) (3 - 1024 - 53)))
      as [Hinf|(m & e & Heq & He)]; [lia|by left|].
    right. exists m, e. split; [done|].
    rewrite digits2_iter_xO in He. lia.
Qed.

Lemma binary_round_aux_exact (m : positive) (e : Z) :
  Z.pos (digits2_pos m) = 53 -> -1074 <= e <= 971 ->
  binary_round_aux 53 1024 false (Z.pos m) e loc_Exact = S754_finite false m e.
Proof.
  intros Hd He. unfold binary_round_aux, shr_fexp, fexp, emin. simpl Zdigits2.
  rewrite Hd.
  replace (Z.max (53 + e - 53) (3 - 1024 - 53) - e) with 0 by lia.
  cbn [shr shr_record_of_loc loc_of_shr_record shr_m round_nearest_even
       Zdigits2].
  rewrite Hd.
  replace (Z.max (53 + e - 53) (3 - 1024 - 53) - e) with 0 by lia.
  cbn [shr shr_m].
  destruct (Z.leb_spec e (1024 - 53)); [done|lia].
Qed.

(** An integer of at least 1 converts to a float64 of at least 1, or
    overflows. *)
Lemma float_of_int_at_least_one (z : Z) (f : Py.float64) :
  1 <= z -> Py.float_of_int z = inr f ->
  Py.gt_zero f = true /\ Py.float_ge_one f = true.
Proof.
  intros Hz. unfold Py.float_of_int, Py.gt_zero, Py.float_ge_one.
  destruct (decide (z = 1)) as [->|Hne]; [by intros [= <-]|].
  destruct (binary_normalize_positive z Hz) as [->|(m & e & -> & He)]; [done|].
  intros [= <-]. split; [done|].
  assert (2 <= Zdigits2 z).
  { destruct z as [|p|p]; try lia. simpl.
    pose proof (digits2_bounds p) as [_ Hhi].
    destruct (digits2_pos p) eqn:Hd; first [lia | simpl in Hhi; lia]. }
  unfold SFleb, SFcompare, Py.fone.
  destruct (Z.compare_spec (-52) e); first [lia | done].
Qed.

(** The integers from 1 to 2^53 convert exactly. *)
Lemma float_of_int_exact (z : Z) :
  1 <= z <= 2 ^ 53 ->
  exists f, Py.float_of_int z = inr f /\ Py.float_is_int f z = true.
Proof.
  intros Hz. destruct (decide (z = 2 ^ 53)) as [->|Hne].
  { eexists. split; [by vm_compute|by vm_compute]. }
  destruct z as [|p|p]; try lia.
  pose proof (digits2_bounds p) as [Hlo Hhi].
  assert (Z.pos (digits2_pos p) <= 53) as Hd.
  { apply Z.nlt_ge. intros Hgt.
    assert (2 ^ 53 <= 2 ^ (Z.pos (digits2_pos p) - 1))
      by (apply Z.pow_le_mono_r; lia).
    lia. }
  unfold Py.float_of_int, binary_normalize, binary_round, shl_align, fexp, emin.
  destruct (Z.max (Z.pos (digits2_pos p) + 0 - 53) (3 - 1024 - 53) - 0)
    as [|k|k] eqn:Hk; try lia.
  - rewrite binary_round_aux_exact by lia.
    eexists. split; [done|]. unfold Py.float_is_int.
    destruct (Z.leb_spec 0 0); [|lia].
    apply Z.eqb_eq. rewrite Z.pow_0_r. lia.
  - rewrite binary_round_aux_exact by (rewrite ?digits2_iter_xO; lia).
    eexists. split; [done|]. unfold Py.float_is_int.
    assert (Z.max (Z.pos (digits2_pos p) + 0 - 53) (3 - 1024 - 53) = - Z.pos k)
      as -> by lia.
    destruct (Z.leb_spec 0 (- Z.pos k)); [lia|].
    apply Z.eqb_eq. rewrite iter_xO_value. by rewrite Z.opp_involutive.
Qed.

(** A float that is not below 1 is above 0 exactly when it is at least 1:
    it is a number of at least 1, or it is NaN. *)
Lemma float_not_lt_one (f : Py.float64) :
  SFltb f Py.fone = false -> Py.gt_zero f = Py.float_ge_one f.
Proof.
  unfold Py.gt_zero, Py.float_ge_one, SFltb, SFleb, Py.fone, Py.fzero.
  generalize 4503599627370496%positive (-52). intros M E.
  destruct f as [s|[]| |[] m e]; try done.
  unfold SFcompare.
  rewrite (Z.compare_antisym e E).
  destruct (e ?= E); cbn [CompOpp]; try done.
  pose proof (Pos.compare_cont_antisym m M Eq) as H. cbn [CompOpp] in H.
  rewrite <- H. by destruct (Pos.compare_cont Eq m M).
Qed.

(** What a weight that [add_edge] accepts is stored as: 0 is never stored,
    and the stored value is above 0 exactly when it is at least 1. *)
Lemma stored_weight (weight : Py.number) (x : Py.float64) :
  Py.lt_one weight = false -> Py.to_float64 weight = inr x ->
  Py.gt_zero x = Py.float_ge_one x.
Proof.
  destruct weight as [z|f]; simpl.
  - intros Hz Hx. apply Z.ltb_ge in Hz.
    destruct (float_of_int_at_least_one z x Hz Hx) as [-> ->]. done.
  - intros Hf [= <-]. by apply float_not_lt_one.
Qed.

Lemma float_not_lt_one_cases (f : Py.float64) :
  SFltb f Py.fone = false -> f = Py.nan \/ Py.float_ge_one f = true.
Proof.
  unfold Py.float_ge_one, SFltb, SFleb, Py.fone, Py.nan.
  generalize 4503599627370496%positive (-52). intros M E.
  destruct f as [s|[]| |[] m e]; try done; auto.
  unfold SFcompare.
  rewrite (Z.compare_antisym e E).
  destruct (e ?= E); cbn [CompOpp]; try done; auto.
  pose proof (Pos.compare_cont_antisym m M Eq) as H. cbn [CompOpp] in H.
  rewrite <- H. destruct (Pos.compare_cont Eq m M); cbn [CompOpp]; auto.
Qed.

(** A stored weight is NaN or a value of at least 1. *)
Lemma stored_weight_cases (weight : Py.number) (x : Py.float64) :
  Py.lt_one weight = false -> Py.to_float64 weight = inr x ->
  x = Py.nan \/ Py.float_ge_one x = true.
Proof.
  destruct weight as [z|f]; simpl.
  - intros Hz Hx. apply Z.ltb_ge in Hz.
    destruct (float_of_int_at_least_one z x Hz Hx) as [_ ->]. auto.
  - intros Hf [= <-]. by apply float_not_lt_one_cases.
Qed.

Lemma float_ge_one_gt_zero (x : Py.float64) :
  Py.float_ge_one x = true -> Py.gt_zero x = true.
Proof.
  unfold Py.float_ge_one, Py.gt_zero, SFleb, SFltb, Py.fone, Py.fzero.
  generalize 4503599627370496%positive (-52). intros M E.
  by destruct x as [s|[]| |[] m e].
Qed.

(** ** The adjacency-set graph: invariant and equations of the methods *)

Lemma set_init_vertex_list (acc : list Node.t) (xs : list Z) :
  foldl (fun vl i => vl ++ [Node.init i]) acc xs = acc ++ (Node.init <$> xs).
Proof.
  revert acc. induction xs as [|x xs IH]; intros acc; simpl.
  - by rewrite app_nil_r.
  - rewrite IH. by rewrite <- app_assoc.
Qed.

Lemma set_wf_init (n : Z) (d : bool) : Inv.set_wf (AdjacencySetGraph.init n d).
Proof.
  unfold Inv.set_wf, AdjacencySetGraph.init; simpl.
  rewrite set_init_vertex_list; simpl. unfold Py.range. split.
  - by rewrite length_fmap, length_seqZ.
  - intros k node. rewrite list_lookup_fmap.
    destruct (seqZ 0 n !! k) as [i|] eqn:Hk; simpl; [|done].
    apply lookup_seqZ in Hk as [-> _]. intros [= <-]. simpl. lia.
Qed.

Lemma set_vertex_list_id (g : AdjacencySetGraph.t) :
  AdjacencySetGraph.set_vertex_list (AdjacencySetGraph.vertex_list g) g = g.
Proof. by destruct g. Qed.

Lemma set_lookup_vertex (g : AdjacencySetGraph.t) (v : Z) :
  Inv.set_wf g -> 0 <= v < AdjacencySetGraph.nbvertices g ->
  exists node,
    AdjacencySetGraph.vertex_list g !! Z.to_nat v = Some node
    /\ Node.vertexid node = v.
Proof.
  intros [Hlen Hid] Hv.
  destruct (lookup_lt_is_Some_2 (AdjacencySetGraph.vertex_list g) (Z.to_nat v))
    as [node Hnode]; [lia|].
  exists node. split; [done|]. rewrite (Hid _ _ Hnode). lia.
Qed.

Lemma set_at_vertex_in_bounds {A : Type} (g : AdjacencySetGraph.t) (v : Z)
    (method : Py.M Node.t A) (node : Node.t) :
  0 <= v ->
  AdjacencySetGraph.vertex_list g !! Z.to_nat v = Some node ->
  AdjacencySetGraph.at_vertex v method g
  = (AdjacencySetGraph.set_vertex_list
       (<[Z.to_nat v := (method node).1]> (AdjacencySetGraph.vertex_list g)) g,
     (method node).2).
Proof.
  intros Hv Hnode. unfold AdjacencySetGraph.at_vertex.
  rewrite index_in_range by (apply lookup_lt_Some in Hnode; lia).
  rewrite Hnode. by destruct (method node).
Qed.

Lemma set_at_vertex_add_edge (g : AdjacencySetGraph.t) (v x : Z) :
  Inv.set_wf g -> 0 <= v < AdjacencySetGraph.nbvertices g ->
  AdjacencySetGraph.at_vertex v (Node.add_edge x) g
  = if bool_decide (v = x) then (g, inl SelfLoopError)
    else (Inv.link g v x, inr tt).
Proof.
  intros Hwf Hv. destruct (set_lookup_vertex g v Hwf Hv) as (node & Hnode & Hid).
  rewrite (set_at_vertex_in_bounds g v _ node) by (done || lia).
  unfold Node.add_edge. py_unfold. rewrite Hid.
  case_bool_decide; simpl.
  - by rewrite list_insert_id, set_vertex_list_id.
  - unfold Inv.link. do 2 f_equal.
    rewrite list_insert_alter. apply list_alter_ext; [|done].
    intros y Hy. rewrite Hnode in Hy. by injection Hy as <-.
Qed.

Lemma set_at_vertex_get_adjacent (g : AdjacencySetGraph.t) (v : Z) :
  Inv.set_wf g -> 0 <= v < AdjacencySetGraph.nbvertices g ->
  AdjacencySetGraph.at_vertex v Node.get_adjacent_vertices g
  = (g, inr (Py.sorted (Inv.adjacency g v))).
Proof.
  intros Hwf Hv. destruct (set_lookup_vertex g v Hwf Hv) as (node & Hnode & Hid).
  rewrite (set_at_vertex_in_bounds g v _ node) by (done || lia).
  unfold Node.get_adjacent_vertices, Inv.adjacency. py_unfold.
  by rewrite Hnode, list_insert_id, set_vertex_list_id.
Qed.

Lemma set_wf_link (g : AdjacencySetGraph.t) (v x : Z) :
  Inv.set_wf g -> Inv.set_wf (Inv.link g v x).
Proof.
  intros [Hlen Hid]. split; simpl.
  - by rewrite length_alter.
  - intros k node. rewrite list_lookup_alter. case_decide as Hk.
    + subst k.
      destruct (AdjacencySetGraph.vertex_list g !! Z.to_nat v) as [m|] eqn:Hm;
        simpl; [|done].
      intros [= <-]. simpl. by apply Hid.
    + apply Hid.
Qed.

Lemma set_adjacency_link (g : AdjacencySetGraph.t) (v x u : Z) :
  Inv.set_wf g -> 0 <= v < AdjacencySetGraph.nbvertices g -> 0 <= u ->
  Inv.adjacency (Inv.link g v x) u
  = if bool_decide (u = v) then {[x]} ∪ Inv.adjacency g u
    else Inv.adjacency g u.
Proof.
  intros Hwf Hv Hu. unfold Inv.adjacency, Inv.link; simpl.
  rewrite list_lookup_alter. case_bool_decide as Huv.
  - subst u. rewrite decide_True by done.
    destruct (set_lookup_vertex g v Hwf Hv) as (node & -> & _). done.
  - rewrite decide_False by lia. done.
Qed.

Lemma bounds_check_pair (n v1 v2 : Z) :
  (v1 >=? n) || (v2 >=? n) || (v1 <? 0) || (v2 <? 0)
  = negb (bool_decide (0 <= v1 < n /\ 0 <= v2 < n)).
Proof.
  rewrite !Z.geb_leb.
  destruct (Z.leb_spec n v1), (Z.leb_spec n v2), (Z.ltb_spec v1 0),
    (Z.ltb_spec v2 0); simpl;
    (rewrite bool_decide_eq_false_2 by lia)
    || (rewrite bool_decide_eq_true_2 by lia); reflexivity.
Qed.

Lemma bounds_check (n v : Z) :
  (v <? 0) || (v >=? n) = negb (bool_decide (0 <= v < n)).
Proof.
  rewrite Z.geb_leb.
  destruct (Z.leb_spec n v), (Z.ltb_spec v 0); simpl;
    (rewrite bool_decide_eq_false_2 by lia)
    || (rewrite bool_decide_eq_true_2 by lia); reflexivity.
Qed.

Lemma set_add_edge_eq (g : AdjacencySetGraph.t) (v1 v2 weight : Z) :
  Inv.set_wf g ->
  AdjacencySetGraph.add_edge v1 v2 weight g
  = if negb (bool_decide (0 <= v1 < AdjacencySetGraph.nbvertices g
                          /\ 0 <= v2 < AdjacencySetGraph.nbvertices g))
    then (g, inl OutOfBounds)
    else if negb (weight =? 1) then (g, inl WeightNotSupported)
    else if bool_decide (v1 = v2) then (g, inl SelfLoopError)
    else if AdjacencySetGraph.directed g then (Inv.link g v1 v2, inr tt)
    else (Inv.link (Inv.link g v1 v2) v2 v1, inr tt).
Proof.
  intros Hwf. unfold AdjacencySetGraph.add_edge. py_unfold.
  rewrite bounds_check_pair. case_bool_decide as Hb; simpl; [|done].
  destruct Hb as [Hv1 Hv2].
  destruct (weight =? 1); simpl; [|done].
  rewrite set_at_vertex_add_edge by done.
  case_bool_decide as H12; [done|].
  destruct (AdjacencySetGraph.directed g) eqn:Hd; simpl; rewrite Hd; [done|].
  rewrite bool_decide_eq_true_2 by done.
  rewrite set_at_vertex_add_edge by (done || by apply set_wf_link).
  by rewrite bool_decide_eq_false_2 by congruence.
Qed.

Lemma set_wf_add_edge (g : AdjacencySetGraph.t) (v1 v2 weight : Z) :
  Inv.set_wf g -> Inv.set_wf (AdjacencySetGraph.add_edge v1 v2 weight g).1.
Proof.
  intros Hwf. rewrite set_add_edge_eq by done.
  repeat (case_match; simpl); auto using set_wf_link.
Qed.

Lemma set_reachable_wf (g : AdjacencySetGraph.t) :
  AdjacencySetGraph.reachable g -> Inv.set_wf g.
Proof.
  induction 1 as [n d|g v1 v2 weight _ IH].
  - apply set_wf_init.
  - by apply set_wf_add_edge.
Qed.

Lemma set_get_adjacent_vertices_eq (g : AdjacencySetGraph.t) (v : Z) :
  Inv.set_wf g ->
  AdjacencySetGraph.get_adjacent_vertices v g
  = if bool_decide (0 <= v < AdjacencySetGraph.nbvertices g)
    then (g, inr (Py.sorted (Inv.adjacency g v)))
    else (g, inl OutOfBounds).
Proof.
  intros Hwf. unfold AdjacencySetGraph.get_adjacent_vertices. py_unfold.
  rewrite bounds_check. case_bool_decide; simpl; [|done].
  by apply set_at_vertex_get_adjacent.
Qed.

Lemma set_get_indegree_eq (g : AdjacencySetGraph.t) (v : Z) :
  Inv.set_wf g -> 0 <= v < AdjacencySetGraph.nbvertices g ->
  AdjacencySetGraph.get_indegree v g
  = (g, inr (Inv.count_sources AdjacencySetGraph.get_adjacent_vertices g
               (AdjacencySetGraph.nbvertices g) v)).
Proof.
  intros Hwf Hv. unfold AdjacencySetGraph.get_indegree.
  unfold Py.bind at 1. unfold Py.gets at 1.
  rewrite bounds_check, bool_decide_eq_true_2 by done; simpl.
  unfold Py.bind at 1. unfold Py.gets at 1.
  rewrite (for_each_pure _ _
    (fun i indegree =>
       if Inv.appears_in_adjacent AdjacencySetGraph.get_adjacent_vertices g i v
       then indegree + 1 else indegree)).
  - by rewrite foldl_count.
  - intros i acc Hi. apply elem_of_seqZ in Hi.
    unfold Py.bind, Inv.appears_in_adjacent.
    rewrite set_get_adjacent_vertices_eq by done.
    rewrite bool_decide_eq_true_2 by lia. simpl.
    by destruct (Py.contains v _).
Qed.

(** ** The adjacency-matrix graph: invariant and equations of the methods *)

Lemma matrix_wf_init (n : Z) (d : bool) (g : AdjacencyMatrixGraph.t) :
  AdjacencyMatrixGraph.init n d = inr g -> Inv.matrix_wf g.
Proof.
  unfold AdjacencyMatrixGraph.init, AdjacencyMatrixGraph.zeros.
  rewrite orb_diag. destruct (Z.ltb_spec n 0); [done|].
  intros [= <-]. unfold Inv.matrix_wf; simpl. split_and!.
  - done.
  - by rewrite length_replicate.
  - apply Forall_replicate. by rewrite length_replicate.
Qed.

Lemma matrix_set_matrix_id (g : AdjacencyMatrixGraph.t) :
  AdjacencyMatrixGraph.set_matrix (AdjacencyMatrixGraph.matrix g) g = g.
Proof. by destruct g. Qed.

Lemma matrix_lookup_row (g : AdjacencyMatrixGraph.t) (i : Z) :
  Inv.matrix_wf g -> 0 <= i < AdjacencyMatrixGraph.nbvertices g ->
  exists row,
    AdjacencyMatrixGraph.matrix g !! Z.to_nat i = Some row
    /\ length row = Z.to_nat (AdjacencyMatrixGraph.nbvertices g).
Proof.
  intros (Hn & Hlen & Hrows) Hi.
  destruct (lookup_lt_is_Some_2 (AdjacencyMatrixGraph.matrix g) (Z.to_nat i))
    as [row Hrow]; [lia|].
  exists row. split; [done|].
  by apply (Forall_lookup_1 _ _ _ _ Hrows Hrow).
Qed.

Lemma matrix_lookup_cell (g : AdjacencyMatrixGraph.t) (i j : Z) :
  Inv.matrix_wf g ->
  0 <= i < AdjacencyMatrixGraph.nbvertices g ->
  0 <= j < AdjacencyMatrixGraph.nbvertices g ->
  exists row,
    AdjacencyMatrixGraph.matrix g !! Z.to_nat i = Some row
    /\ row !! Z.to_nat j = Some (Inv.cell g i j).
Proof.
  intros Hwf Hi Hj. destruct (matrix_lookup_row g i Hwf Hi) as (row & Hrow & Hlen).
  exists row. split; [done|]. unfold Inv.cell. rewrite Hrow.
  destruct (lookup_lt_is_Some_2 row (Z.to_nat j)) as [x ->]; [lia|]. done.
Qed.

Lemma matrix_wf_store (g : AdjacencyMatrixGraph.t) (i j : Z) (x : Py.float64) :
  Inv.matrix_wf g -> Inv.matrix_wf (Inv.store g i j x).
Proof.
  intros (Hn & Hlen & Hrows). unfold Inv.matrix_wf; simpl. split_and!.
  - done.
  - by rewrite length_alter.
  - apply Forall_lookup_2. intros k row. rewrite list_lookup_alter.
    case_decide as Hk.
    + destruct (AdjacencyMatrixGraph.matrix g !! Z.to_nat i) as [r|] eqn:Hr;
        simpl; [|done].
      intros [= <-]. rewrite length_insert.
      by apply (Forall_lookup_1 _ _ _ _ Hrows Hr).
    + intros Hr. by apply (Forall_lookup_1 _ _ _ _ Hrows Hr).
Qed.

Lemma matrix_cell_store (g : AdjacencyMatrixGraph.t) (i j : Z)
    (x : Py.float64) (a b : Z) :
  Inv.matrix_wf g ->
  0 <= i < AdjacencyMatrixGraph.nbvertices g ->
  0 <= j < AdjacencyMatrixGraph.nbvertices g ->
  0 <= a -> 0 <= b ->
  Inv.cell (Inv.store g i j x) a b
  = if bool_decide (a = i /\ b = j) then x else Inv.cell g a b.
Proof.
  intros Hwf Hi Hj Ha Hb. unfold Inv.cell, Inv.store; simpl.
  destruct (matrix_lookup_row g i Hwf Hi) as (row & Hrow & Hlen).
  rewrite list_lookup_alter. case_decide as Hai.
  - assert (a = i) as -> by lia. rewrite Hrow; simpl.
    rewrite list_lookup_insert by lia.
    case_bool_decide as Hij; [destruct Hij as [_ ->]|].
    + by rewrite decide_True by (split; [done|lia]).
    + rewrite decide_False; [done|]. intros [Hjb _]. apply Hij. split; lia.
  - rewrite bool_decide_eq_false_2; [done|]. intros [-> _]. done.
Qed.

Lemma matrix_set_eq (g : AdjacencyMatrixGraph.t) (v1 v2 : Z)
    (weight : Py.number) :
  Inv.matrix_wf g ->
  0 <= v1 < AdjacencyMatrixGraph.nbvertices g ->
  0 <= v2 < AdjacencyMatrixGraph.nbvertices g ->
  AdjacencyMatrixGraph.matrix_set v1 v2 weight g
  = match Py.to_float64 weight with
    | inr x => (Inv.store g v1 v2 x, inr tt)
    | inl e => (g, inl e)
    end.
Proof.
  intros Hwf Hv1 Hv2.
  destruct (matrix_lookup_row g v1 Hwf Hv1) as (row & Hrow & Hlen).
  unfold AdjacencyMatrixGraph.matrix_set.
  rewrite index_in_range by (apply lookup_lt_Some in Hrow; lia).
  rewrite Hrow. rewrite index_in_range by lia.
  destruct (Py.to_float64 weight) as [e|x]; [done|].
  unfold Inv.store. do 2 f_equal.
  rewrite list_insert_alter. apply list_alter_ext; [|done].
  intros y Hy. rewrite Hrow in Hy. by injection Hy as <-.
Qed.

Lemma matrix_get_in_bounds (g : AdjacencyMatrixGraph.t) (v1 v2 : Z) :
  Inv.matrix_wf g ->
  0 <= v1 < AdjacencyMatrixGraph.nbvertices g ->
  0 <= v2 < AdjacencyMatrixGraph.nbvertices g ->
  AdjacencyMatrixGraph.matrix_get v1 v2 g = (g, inr (Inv.cell g v1 v2)).
Proof.
  intros Hwf Hv1 Hv2.
  destruct (matrix_lookup_cell g v1 v2 Hwf Hv1 Hv2) as (row & Hrow & Hcell).
  unfold AdjacencyMatrixGraph.matrix_get, Py.getitem.
  rewrite index_in_range by (apply lookup_lt_Some in Hrow; lia).
  rewrite Hrow.
  rewrite index_in_range by (apply lookup_lt_Some in Hcell; lia).
  by rewrite Hcell.
Qed.

Lemma wrap_in_bounds (n i : Z) : - n <= i < n -> 0 <= Inv.wrap n i < n.
Proof. unfold Inv.wrap. destruct (Z.ltb_spec i 0); lia. Qed.

Lemma getitem_wrap {A : Type} (a : list A) (n i : Z) :
  length a = Z.to_nat n -> - n <= i < n ->
  Py.getitem a i = Py.getitem a (Inv.wrap n i).
Proof.
  intros Hlen Hi. unfold Py.getitem, Inv.wrap.
  destruct (Z.ltb_spec i 0) as [Hneg|Hpos]; [|done].
  rewrite index_negative by lia. rewrite index_in_range by lia.
  by replace (Z.to_nat (Z.of_nat (length a) + i)) with (Z.to_nat (n + i)) by lia.
Qed.

Lemma getitem_outside {A : Type} (a : list A) (n i : Z) :
  length a = Z.to_nat n -> 0 <= n -> i < - n \/ n <= i ->
  Py.getitem a i = inl IndexError.
Proof.
  intros Hlen Hn Hi. unfold Py.getitem. by rewrite index_outside by lia.
Qed.

Lemma matrix_get_wrap (g : AdjacencyMatrixGraph.t) (v1 v2 : Z) :
  Inv.matrix_wf g ->
  - AdjacencyMatrixGraph.nbvertices g <= v1 < AdjacencyMatrixGraph.nbvertices g ->
  - AdjacencyMatrixGraph.nbvertices g <= v2 < AdjacencyMatrixGraph.nbvertices g ->
  AdjacencyMatrixGraph.matrix_get v1 v2 g
  = (g, inr (Inv.cell g (Inv.wrap (AdjacencyMatrixGraph.nbvertices g) v1)
               (Inv.wrap (AdjacencyMatrixGraph.nbvertices g) v2))).
Proof.
  intros Hwf Hv1 Hv2.
  rewrite <- (matrix_get_in_bounds g) by auto using wrap_in_bounds.
  unfold AdjacencyMatrixGraph.matrix_get. f_equal.
  destruct Hwf as (Hn & Hlen & Hrows).
  rewrite <- (getitem_wrap _ _ v1) by done.
  destruct (Py.getitem (AdjacencyMatrixGraph.matrix g) v1) as [e|row] eqn:Hrow;
    [done|].
  apply getitem_wrap; [|done].
  unfold Py.getitem in Hrow.
  destruct (Py.index _ v1) as [|k]; [done|].
  destruct (AdjacencyMatrixGraph.matrix g !! k) as [r|] eqn:Hk; [|done].
  injection Hrow as ->. by apply (Forall_lookup_1 _ _ _ _ Hrows Hk).
Qed.

Lemma matrix_get_outside (g : AdjacencyMatrixGraph.t) (v1 v2 : Z) :
  Inv.matrix_wf g ->
  (v1 < - AdjacencyMatrixGraph.nbvertices g
   \/ AdjacencyMatrixGraph.nbvertices g <= v1
   \/ v2 < - AdjacencyMatrixGraph.nbvertices g
   \/ AdjacencyMatrixGraph.nbvertices g <= v2) ->
  AdjacencyMatrixGraph.matrix_get v1 v2 g = (g, inl IndexError).
Proof.
  intros (Hn & Hlen & Hrows) Hout.
  unfold AdjacencyMatrixGraph.matrix_get. f_equal.
  destruct (Py.getitem (AdjacencyMatrixGraph.matrix g) v1) as [e|row] eqn:Hrow.
  - unfold Py.getitem in Hrow.
    destruct (Py.index _ v1) as [e'|k] eqn:Hidx.
    + unfold Py.index in Hidx. repeat case_bool_decide; congruence.
    + destruct (AdjacencyMatrixGraph.matrix g !! k); congruence.
  - assert (length row = Z.to_nat (AdjacencyMatrixGraph.nbvertices g)
            /\ - AdjacencyMatrixGraph.nbvertices g <= v1
                 < AdjacencyMatrixGraph.nbvertices g) as [Hrl Hv1].
    { unfold Py.getitem in Hrow.
      destruct (Py.index _ v1) as [|k] eqn:Hidx; [done|].
      destruct (AdjacencyMatrixGraph.matrix g !! k) as [r|] eqn:Hk; [|done].
      injection Hrow as ->. split.
      - by apply (Forall_lookup_1 _ _ _ _ Hrows Hk).
      - unfold Py.index in Hidx. repeat case_bool_decide; (done || lia). }
    apply (getitem_outside _ (AdjacencyMatrixGraph.nbvertices g)); [done..|lia].
Qed.

Lemma matrix_add_edge_eq (g : AdjacencyMatrixGraph.t) (v1 v2 : Z)
    (weight : Py.number) :
  Inv.matrix_wf g ->
  AdjacencyMatrixGraph.add_edge v1 v2 weight g
  = if negb (bool_decide (0 <= v1 < AdjacencyMatrixGraph.nbvertices g
                          /\ 0 <= v2 < AdjacencyMatrixGraph.nbvertices g))
    then (g, inl OutOfBounds)
    else if Py.lt_one weight then (g, inl WeightNotSupported)
    else match Py.to_float64 weight with
         | inl e => (g, inl e)
         | inr x =>
             if AdjacencyMatrixGraph.directed g
             then (Inv.store g v1 v2 x, inr tt)
             else (Inv.store (Inv.store g v1 v2 x) v2 v1 x, inr tt)
         end.
Proof.
  intros Hwf. unfold AdjacencyMatrixGraph.add_edge.
  unfold Py.bind at 1. unfold Py.gets at 1.
  rewrite bounds_check_pair. case_bool_decide as Hb; cbn [negb]; [|done].
  destruct Hb as [Hv1 Hv2].
  destruct (Py.lt_one weight); [done|].
  unfold Py.bind at 1. rewrite matrix_set_eq by done.
  destruct (Py.to_float64 weight) as [e|x] eqn:Hx; [done|].
  unfold Py.bind, Py.gets, Py.ret. cbn [AdjacencyMatrixGraph.directed Inv.store
    AdjacencyMatrixGraph.set_matrix].
  destruct (AdjacencyMatrixGraph.directed g) eqn:Hd.
  - by rewrite bool_decide_eq_false_2.
  - rewrite bool_decide_eq_true_2 by done.
    rewrite matrix_set_eq by (done || by apply matrix_wf_store).
    by rewrite Hx.
Qed.

Lemma matrix_wf_add_edge (g : AdjacencyMatrixGraph.t) (v1 v2 : Z)
    (weight : Py.number) :
  Inv.matrix_wf g -> Inv.matrix_wf (AdjacencyMatrixGraph.add_edge v1 v2 weight g).1.
Proof.
  intros Hwf. rewrite matrix_add_edge_eq by done.
  repeat (case_match; cbn [fst]); auto using matrix_wf_store.
Qed.

Lemma matrix_reachable_wf (g : AdjacencyMatrixGraph.t) :
  AdjacencyMatrixGraph.reachable g -> Inv.matrix_wf g.
Proof.
  induction 1 as [n d g Hinit|g v1 v2 weight _ IH].
  - by apply (matrix_wf_init n d).
  - by apply matrix_wf_add_edge.
Qed.

Lemma matrix_get_adjacent_vertices_eq (g : AdjacencyMatrixGraph.t) (v : Z) :
  Inv.matrix_wf g ->
  AdjacencyMatrixGraph.get_adjacent_vertices v g
  = if bool_decide (0 <= v < AdjacencyMatrixGraph.nbvertices g)
    then (g, inr (List.filter (fun i => Py.gt_zero (Inv.cell g v i))
                    (Py.range (AdjacencyMatrixGraph.nbvertices g))))
    else (g, inl OutOfBounds).
Proof.
  intros Hwf. unfold AdjacencyMatrixGraph.get_adjacent_vertices.
  unfold Py.bind at 1. unfold Py.gets at 1.
  rewrite bounds_check. case_bool_decide as Hv; simpl; [|done].
  unfold Py.bind at 1. unfold Py.gets at 1.
  rewrite (for_each_pure _ _
    (fun i adjacent_vertices =>
       if Py.gt_zero (Inv.cell g v i) then adjacent_vertices ++ [i]
       else adjacent_vertices)).
  - by rewrite foldl_collect.
  - intros i acc Hi. apply elem_of_seqZ in Hi.
    unfold Py.bind. rewrite matrix_get_in_bounds by (done || lia).
    by destruct (Py.gt_zero (Inv.cell g v i)).
Qed.

Lemma matrix_appears_in_adjacent (g : AdjacencyMatrixGraph.t) (u v : Z) :
  Inv.matrix_wf g ->
  0 <= u < AdjacencyMatrixGraph.nbvertices g ->
  0 <= v < AdjacencyMatrixGraph.nbvertices g ->
  Inv.appears_in_adjacent AdjacencyMatrixGraph.get_adjacent_vertices g u v
  = (Py.gt_zero (Inv.cell g u v)).
Proof.
  intros Hwf Hu Hv. unfold Inv.appears_in_adjacent.
  rewrite matrix_get_adjacent_vertices_eq by done.
  rewrite bool_decide_eq_true_2 by done. simpl. unfold Py.contains.
  destruct (Py.gt_zero (Inv.cell g u v)) eqn:Hc.
  - apply bool_decide_eq_true_2, list_elem_of_In, filter_In. split; [|done].
    apply list_elem_of_In, elem_of_seqZ. lia.
  - apply bool_decide_eq_false_2. intros Hin.
    apply list_elem_of_In, filter_In in Hin as [_ Hin]. congruence.
Qed.

Lemma matrix_get_indegree_eq (g : AdjacencyMatrixGraph.t) (v : Z) :
  Inv.matrix_wf g -> 0 <= v < AdjacencyMatrixGraph.nbvertices g ->
  AdjacencyMatrixGraph.get_indegree v g
  = (g, inr (Inv.count_sources AdjacencyMatrixGraph.get_adjacent_vertices g
               (AdjacencyMatrixGraph.nbvertices g) v)).
Proof.
  intros Hwf Hv. unfold AdjacencyMatrixGraph.get_indegree.
  unfold Py.bind at 1. unfold Py.gets at 1.
  rewrite bounds_check, bool_decide_eq_true_2 by done; simpl.
  unfold Py.bind at 1. unfold Py.gets at 1.
  rewrite (for_each_pure _ _
    (fun i indegree => if Py.gt_zero (Inv.cell g i v) then indegree + 1 else indegree)).
  - rewrite foldl_count, Z.add_0_l. unfold Inv.count_sources. do 4 f_equal.
    apply filter_ext_in. intros u Hu.
    apply list_elem_of_In, elem_of_seqZ in Hu.
    by rewrite matrix_appears_in_adjacent by (done || lia).
  - intros i acc Hi. apply elem_of_seqZ in Hi.
    unfold Py.bind. rewrite matrix_get_in_bounds by (done || lia).
    by destruct (Py.gt_zero (Inv.cell g i v)).
Qed.

(** ** Adding an edge that is already there *)

Lemma set_link_idemp (g : AdjacencySetGraph.t) (v x : Z) :
  Inv.link (Inv.link g v x) v x = Inv.link g v x.
Proof.
  unfold Inv.link, AdjacencySetGraph.set_vertex_list; simpl. f_equal.
  rewrite list_alter_alter_eq. apply list_alter_ext; [|done].
  intros node _. unfold Inv.node_with; simpl. f_equal.
  by rewrite (assoc_L (∪)), (idemp_L (∪)).
Qed.

Lemma set_link_comm (g : AdjacencySetGraph.t) (v x u y : Z) :
  Z.to_nat v <> Z.to_nat u ->
  Inv.link (Inv.link g v x) u y = Inv.link (Inv.link g u y) v x.
Proof.
  intros Hvu. unfold Inv.link, AdjacencySetGraph.set_vertex_list; simpl.
  f_equal. by apply list_alter_alter_ne.
Qed.

Lemma matrix_store_idemp (g : AdjacencyMatrixGraph.t) (i j : Z)
    (x : Py.float64) :
  Inv.store (Inv.store g i j x) i j x = Inv.store g i j x.
Proof.
  unfold Inv.store, AdjacencyMatrixGraph.set_matrix; simpl. f_equal.
  rewrite list_alter_alter_eq. apply list_alter_ext; [|done].
  intros row _. simpl. apply list_insert_insert_eq.
Qed.

Lemma matrix_store_comm (g : AdjacencyMatrixGraph.t) (i j : Z)
    (x : Py.float64) (a b : Z) (y : Py.float64) :
  Z.to_nat i <> Z.to_nat a ->
  Inv.store (Inv.store g i j x) a b y = Inv.store (Inv.store g a b y) i j x.
Proof.
  intros Hia. unfold Inv.store, AdjacencyMatrixGraph.set_matrix; simpl.
  f_equal. by apply list_alter_alter_ne.
Qed.

(** ** No weight error from the mutation itself *)

Lemma set_at_vertex_add_edge_no_weight_error (g : AdjacencySetGraph.t) (v x : Z) :
  (AdjacencySetGraph.at_vertex v (Node.add_edge x) g).2 <> inl WeightNotSupported.
Proof.
  unfold AdjacencySetGraph.at_vertex.
  destruct (Py.index _ v) as [e|k] eqn:Hidx; simpl.
  - unfold Py.index in Hidx. repeat case_bool_decide; congruence.
  - destruct (AdjacencySetGraph.vertex_list g !! k) as [node|]; simpl; [|done].
    unfold Node.add_edge. py_unfold. by case_bool_decide.
Qed.

Lemma to_float64_no_weight_error (weight : Py.number) (e : exn) :
  Py.to_float64 weight = inl e -> e = OverflowError.
Proof.
  destruct weight as [z|f]; [|done]. unfold Py.to_float64, Py.float_of_int.
  destruct (binary_normalize 53 1024 z 0 false); congruence.
Qed.

Lemma matrix_set_no_weight_error (g : AdjacencyMatrixGraph.t) (v1 v2 : Z)
    (x : Py.number) :
  (AdjacencyMatrixGraph.matrix_set v1 v2 x g).2 <> inl WeightNotSupported.
Proof.
  unfold AdjacencyMatrixGraph.matrix_set.
  destruct (Py.index _ v1) as [e|k] eqn:Hidx; cbn [snd].
  - unfold Py.index in Hidx. repeat case_bool_decide; congruence.
  - destruct (AdjacencyMatrixGraph.matrix g !! k) as [row|]; cbn [snd]; [|done].
    destruct (Py.index _ v2) as [e|k2] eqn:Hidx2; cbn [snd].
    + unfold Py.index in Hidx2. repeat case_bool_decide; congruence.
    + destruct (Py.to_float64 x) as [e|y] eqn:Hx; cbn [snd]; [|done].
      apply to_float64_no_weight_error in Hx. congruence.
Qed.

(** ** Weights that a float64 cell holds exactly *)


(** Every integer from 1 to 2^53 is held exactly, and so is every float of
    at least 1. *)
Lemma exactly_representable_int (z : Z) :
  1 <= z <= 2 ^ 53 -> Py.exactly_representable (Py.Int z) = true.
Proof.
  intros Hz. unfold Py.exactly_representable, Py.to_float64, Py.float_eq.
  by destruct (float_of_int_exact z Hz) as (f & -> & ->).
Qed.

Lemma exactly_representable_float (f : Py.float64) :
  Py.ge_one (Py.Float f) = true -> Py.exactly_representable (Py.Float f) = true.
Proof.
  unfold Py.exactly_representable, Py.to_float64, Py.float_eq, Py.ge_one.
  unfold SFleb, SFeqb, Py.fone.
  destruct f as [s|[]| |[] m e]; try done.
  intros _. unfold SFcompare.
  by rewrite Z.compare_refl, Pos.compare_cont_refl.
Qed.

Lemma matrix_add_edge_accepted (g : AdjacencyMatrixGraph.t) (v1 v2 : Z)
    (weight : Py.number) (x : Py.float64) :
  Inv.matrix_wf g ->
  0 <= v1 < AdjacencyMatrixGraph.nbvertices g ->
  0 <= v2 < AdjacencyMatrixGraph.nbvertices g ->
  Py.lt_one weight = false ->
  Py.to_float64 weight = inr x ->
  AdjacencyMatrixGraph.add_edge v1 v2 weight g
  = (if AdjacencyMatrixGraph.directed g then Inv.store g v1 v2 x
     else Inv.store (Inv.store g v1 v2 x) v2 v1 x, inr tt).
Proof.
  intros Hwf Hv1 Hv2 Hlt Hx. rewrite matrix_add_edge_eq by done.
  rewrite bool_decide_eq_true_2 by done. cbn [negb]. rewrite Hlt, Hx.
  by destruct (AdjacencyMatrixGraph.directed g).
Qed.

Lemma matrix_cell_added (g : AdjacencyMatrixGraph.t) (v1 v2 : Z)
    (x : Py.float64) (a b : Z) :
  Inv.matrix_wf g ->
  0 <= v1 < AdjacencyMatrixGraph.nbvertices g ->
  0 <= v2 < AdjacencyMatrixGraph.nbvertices g ->
  0 <= a -> 0 <= b ->
  Inv.cell (if AdjacencyMatrixGraph.directed g then Inv.store g v1 v2 x
            else Inv.store (Inv.store g v1 v2 x) v2 v1 x) a b
  = if bool_decide ((a = v1 /\ b = v2)
                    \/ (AdjacencyMatrixGraph.directed g = false
                        /\ a = v2 /\ b = v1))
    then x else Inv.cell g a b.
Proof.
  intros Hwf Hv1 Hv2 Ha Hb.
  pose proof (matrix_wf_store g v1 v2 x Hwf) as Hwf1.
  destruct (AdjacencyMatrixGraph.directed g) eqn:Hd.
  - rewrite matrix_cell_store by done.
    repeat case_bool_decide; naive_solver.
  - rewrite !matrix_cell_store by done.
    repeat case_bool_decide; naive_solver.
Qed.

Lemma matrix_added_wf (g : AdjacencyMatrixGraph.t) (v1 v2 : Z)
    (x : Py.float64) :
  Inv.matrix_wf g ->
  Inv.matrix_wf (if AdjacencyMatrixGraph.directed g then Inv.store g v1 v2 x
                 else Inv.store (Inv.store g v1 v2 x) v2 v1 x)
  /\ AdjacencyMatrixGraph.nbvertices
       (if AdjacencyMatrixGraph.directed g then Inv.store g v1 v2 x
        else Inv.store (Inv.store g v1 v2 x) v2 v1 x)
     = AdjacencyMatrixGraph.nbvertices g
  /\ AdjacencyMatrixGraph.directed
       (if AdjacencyMatrixGraph.directed g then Inv.store g v1 v2 x
        else Inv.store (Inv.store g v1 v2 x) v2 v1 x)
     = AdjacencyMatrixGraph.directed g.
Proof.
  intros Hwf.
  destruct (AdjacencyMatrixGraph.directed g) eqn:Hd;
    auto using matrix_wf_store.
Qed.

(** ** The concrete graphs are constructed ones *)

Lemma demo_directed_matrix_reachable :
  AdjacencyMatrixGraph.reachable Demo.directed_matrix.
Proof. by apply (AdjacencyMatrixGraph.reachable_init 4 true). Qed.

Lemma demo_undirected_matrix_reachable :
  AdjacencyMatrixGraph.reachable Demo.undirected_matrix.
Proof. by apply (AdjacencyMatrixGraph.reachable_init 3 false). Qed.

(** The end-to-end scenario of [main]: a directed graph on four vertices
    with the edges (0,1,43), (0,2,55) and (2,3,10). *)
Example main_scenario :
  (AdjacencyMatrixGraph.get_adjacent_vertices 0 Demo.main_graph).2 = inr [1; 2]
  /\ (AdjacencyMatrixGraph.get_indegree 3 Demo.main_graph).2 = inr 1
  /\ (AdjacencyMatrixGraph.get_edge_weight 0 2 Demo.main_graph).2
     = Py.float_of_int 55.
Proof. by vm_compute. Qed.

Lemma demo_main_graph_reachable :
  AdjacencyMatrixGraph.reachable Demo.main_graph.
Proof.
  do 3 apply AdjacencyMatrixGraph.reachable_add_edge.
  apply demo_directed_matrix_reachable.
Qed.

Lemma demo_star_set_reachable : AdjacencySetGraph.reachable Demo.star_set.
Proof.
  do 2 apply AdjacencySetGraph.reachable_add_edge.
  apply AdjacencySetGraph.reachable_init.
Qed.

Example star_set_scenario :
  (AdjacencySetGraph.get_adjacent_vertices 1 Demo.star_set).2 = inr [0; 3]
  /\ (AdjacencySetGraph.get_indegree 1 Demo.star_set).2 = inr 2
  /\ (AdjacencySetGraph.get_indegree 2 Demo.star_set).2 = inr 0.
Proof. by vm_compute. Qed.

(** ** The properties of the specification *)




(** C2. Adjacency set: on a graph built through the constructor and
    [add_edge], for in-bounds [v1 <> v2] the call [add_edge(v1, v2)] (the
    weight left at its default 1) returns, and afterwards
    [get_adjacent_vertices(v1)] contains [v2]; when the graph is undirected
    [get_adjacent_vertices(v2)] contains [v1] too. *)
Theorem C2_set_add_edge_adjacent
    (g : AdjacencySetGraph.t) (v1 v2 : Z) :
  AdjacencySetGraph.reachable g ->
  0 <= v1 < AdjacencySetGraph.nbvertices g ->
  0 <= v2 < AdjacencySetGraph.nbvertices g ->
  v1 <> v2 ->
  exists g',
    AdjacencySetGraph.add_edge v1 v2 1 g = (g', inr tt)
    /\ (exists l, AdjacencySetGraph.get_adjacent_vertices v1 g' = (g', inr l)
                  /\ v2 ∈ l)
    /\ (AdjacencySetGraph.directed g = false ->
        exists l, AdjacencySetGraph.get_adjacent_vertices v2 g' = (g', inr l)
                  /\ v1 ∈ l).
Proof.
  intros Hreach Hv1 Hv2 Hne. apply set_reachable_wf in Hreach as Hwf.
  rewrite set_add_edge_eq by done.
  rewrite bool_decide_eq_true_2 by done. simpl.
  rewrite bool_decide_eq_false_2 by done.
  pose proof (set_wf_link g v1 v2 Hwf) as Hwf1.
  destruct (AdjacencySetGraph.directed g) eqn:Hd.
  - eexists. split; [done|]. split; [|done].
    rewrite set_get_adjacent_vertices_eq by done.
    rewrite bool_decide_eq_true_2 by done.
    eexists. split; [done|]. apply sorted_contains.
    rewrite set_adjacency_link by (done || lia).
    rewrite bool_decide_eq_true_2 by done. by apply elem_of_union_l, elem_of_singleton.
  - pose proof (set_wf_link _ v2 v1 Hwf1) as Hwf2.
    eexists. split; [done|].
    rewrite !set_get_adjacent_vertices_eq by done.
    rewrite !bool_decide_eq_true_2 by done.
    split; [|intros _]; (eexists; split; [done|]); apply sorted_contains;
      rewrite !set_adjacency_link by (done || lia).
    + rewrite bool_decide_eq_false_2 by done.
      rewrite bool_decide_eq_true_2 by done. by apply elem_of_union_l, elem_of_singleton.
    + rewrite bool_decide_eq_true_2 by done. by apply elem_of_union_l, elem_of_singleton.
Qed.

Lemma C2_witness :
  exists g',
    AdjacencySetGraph.add_edge 0 3 1 Demo.undirected_set = (g', inr tt)
    /\ (exists l, AdjacencySetGraph.get_adjacent_vertices 0 g' = (g', inr l)
                  /\ 3 ∈ l)
    /\ (AdjacencySetGraph.directed Demo.undirected_set = false ->
        exists l, AdjacencySetGraph.get_adjacent_vertices 3 g' = (g', inr l)
                  /\ 0 ∈ l).
Proof.
  apply (C2_set_add_edge_adjacent Demo.undirected_set 0 3); simpl; try lia.
  apply AdjacencySetGraph.reachable_init.
Defined.

(** C3. Both representations, every vertex count (so every [N > 0]):
    [add_edge], [get_adjacent_vertices] and [get_indegree] raise
    [OutOfBounds], and leave the graph as it was, whenever a vertex index
    argument is negative or at least [N]. *)
Theorem C3_out_of_bounds :
  (forall (g : AdjacencySetGraph.t) (v1 v2 weight : Z),
      v1 < 0 \/ AdjacencySetGraph.nbvertices g <= v1
      \/ v2 < 0 \/ AdjacencySetGraph.nbvertices g <= v2 ->
      AdjacencySetGraph.add_edge v1 v2 weight g = (g, inl OutOfBounds))
  /\ (forall (g : AdjacencySetGraph.t) (v : Z),
      v < 0 \/ AdjacencySetGraph.nbvertices g <= v ->
      AdjacencySetGraph.get_adjacent_vertices v g = (g, inl OutOfBounds)
      /\ AdjacencySetGraph.get_indegree v g = (g, inl OutOfBounds))
  /\ (forall (g : AdjacencyMatrixGraph.t) (v1 v2 : Z) (weight : Py.number),
      v1 < 0 \/ AdjacencyMatrixGraph.nbvertices g <= v1
      \/ v2 < 0 \/ AdjacencyMatrixGraph.nbvertices g <= v2 ->
      AdjacencyMatrixGraph.add_edge v1 v2 weight g = (g, inl OutOfBounds))
  /\ (forall (g : AdjacencyMatrixGraph.t) (v : Z),
      v < 0 \/ AdjacencyMatrixGraph.nbvertices g <= v ->
      AdjacencyMatrixGraph.get_adjacent_vertices v g = (g, inl OutOfBounds)
      /\ AdjacencyMatrixGraph.get_indegree v g = (g, inl OutOfBounds)).
Proof.
  split_and!.
  - intros g v1 v2 weight Hout. unfold AdjacencySetGraph.add_edge. py_unfold.
    rewrite bounds_check_pair. by rewrite bool_decide_eq_false_2 by lia.
  - intros g v Hout.
    unfold AdjacencySetGraph.get_adjacent_vertices,
      AdjacencySetGraph.get_indegree.
    unfold Py.bind, Py.gets, Py.raise.
    rewrite bounds_check. by rewrite bool_decide_eq_false_2 by lia.
  - intros g v1 v2 weight Hout. unfold AdjacencyMatrixGraph.add_edge.
    unfold Py.bind at 1. unfold Py.gets at 1, Py.raise.
    rewrite bounds_check_pair. by rewrite bool_decide_eq_false_2 by lia.
  - intros g v Hout.
    unfold AdjacencyMatrixGraph.get_adjacent_vertices,
      AdjacencyMatrixGraph.get_indegree.
    unfold Py.bind, Py.gets, Py.raise.
    rewrite bounds_check. by rewrite bool_decide_eq_false_2 by lia.
Qed.

Lemma C3_witness :
  AdjacencySetGraph.add_edge (-1) 0 1 Demo.undirected_set
    = (Demo.undirected_set, inl OutOfBounds)
  /\ AdjacencySetGraph.add_edge 4 0 1 Demo.undirected_set
    = (Demo.undirected_set, inl OutOfBounds)
  /\ AdjacencySetGraph.get_adjacent_vertices (-1) Demo.undirected_set
    = (Demo.undirected_set, inl OutOfBounds)
  /\ AdjacencySetGraph.get_indegree 4 Demo.undirected_set
    = (Demo.undirected_set, inl OutOfBounds)
  /\ AdjacencyMatrixGraph.add_edge (-1) 0 (Py.Int 1) Demo.directed_matrix
    = (Demo.directed_matrix, inl OutOfBounds)
  /\ AdjacencyMatrixGraph.add_edge 4 0 (Py.Int 1) Demo.directed_matrix
    = (Demo.directed_matrix, inl OutOfBounds)
  /\ AdjacencyMatrixGraph.get_adjacent_vertices 4 Demo.directed_matrix
    = (Demo.directed_matrix, inl OutOfBounds)
  /\ AdjacencyMatrixGraph.get_indegree (-1) Demo.directed_matrix
    = (Demo.directed_matrix, inl OutOfBounds).
Proof.
  destruct C3_out_of_bounds as (Hs_add & Hs_query & Hm_add & Hm_query).
  split_and!.
  - apply Hs_add; simpl; lia.
  - apply Hs_add; simpl; lia.
  - apply Hs_query; simpl; lia.
  - apply Hs_query; simpl; lia.
  - apply Hm_add; simpl; lia.
  - apply Hm_add; simpl; lia.
  - apply Hm_query; simpl; lia.
  - apply Hm_query; simpl; lia.
Defined.

(** C4. [add_edge] raises [WeightNotSupported] exactly when its vertex
    arguments are in bounds and the weight does not fit the representation:
    [weight != 1] for the adjacency set, [weight < 1] for the adjacency
    matrix. *)
Theorem C4_weight_not_supported :
  (forall (g : AdjacencySetGraph.t) (v1 v2 weight : Z),
      (AdjacencySetGraph.add_edge v1 v2 weight g).2 = inl WeightNotSupported
      <-> (0 <= v1 < AdjacencySetGraph.nbvertices g
           /\ 0 <= v2 < AdjacencySetGraph.nbvertices g)
          /\ weight <> 1)
  /\ (forall (g : AdjacencyMatrixGraph.t) (v1 v2 : Z) (weight : Py.number),
      (AdjacencyMatrixGraph.add_edge v1 v2 weight g).2 = inl WeightNotSupported
      <-> (0 <= v1 < AdjacencyMatrixGraph.nbvertices g
           /\ 0 <= v2 < AdjacencyMatrixGraph.nbvertices g)
          /\ Py.lt_one weight = true).
Proof.
  split.
  - intros g v1 v2 weight. unfold AdjacencySetGraph.add_edge. py_unfold.
    rewrite bounds_check_pair. case_bool_decide as Hb; simpl.
    + destruct (Z.eqb_spec weight 1) as [Hw|Hw]; simpl; [|by split].
      split; [|intros [_ ?]; done].
      pose proof (set_at_vertex_add_edge_no_weight_error g v1 v2) as H1.
      destruct (AdjacencySetGraph.at_vertex v1 (Node.add_edge v2) g)
        as [s' [e|[]]]; simpl in *; [congruence|].
      case_bool_decide; [|done].
      intros H2. by apply set_at_vertex_add_edge_no_weight_error in H2.
    + split; [done|]. intros [? _]. done.
  - intros g v1 v2 weight. unfold AdjacencyMatrixGraph.add_edge.
    unfold Py.bind at 1. unfold Py.gets at 1, Py.raise.
    rewrite bounds_check_pair. case_bool_decide as Hb; cbn [negb].
    + destruct (Py.lt_one weight) eqn:Hw; [by split|].
      split; [|intros [_ ?]; done].
      unfold Py.bind, Py.gets, Py.ret.
      pose proof (matrix_set_no_weight_error g v1 v2 weight) as H1.
      destruct (AdjacencyMatrixGraph.matrix_set v1 v2 weight g)
        as [s' [e|[]]]; cbn [snd] in *; [congruence|].
      case_bool_decide; [|done].
      intros H2. by apply matrix_set_no_weight_error in H2.
    + split; [done|]. intros [? _]. done.
Qed.

Lemma C4_witness :
  (AdjacencySetGraph.add_edge 0 1 2 Demo.undirected_set).2
    = inl WeightNotSupported
  /\ (AdjacencyMatrixGraph.add_edge 0 1 (Py.Int 0) Demo.directed_matrix).2
    = inl WeightNotSupported.
Proof.
  destruct C4_weight_not_supported as [Hs Hm]. split.
  - apply Hs; simpl; lia.
  - apply Hm. split; [vm_compute; by repeat split|reflexivity].
Defined.




(** C6. Indegree consistency: in both representations, on every graph built
    through the constructor and [add_edge] and for every in-bounds [v],
    [get_indegree(v)] returns the number of vertices [u] of [0, N) ([u] may
    be [v]) such that [v] appears in [get_adjacent_vertices(u)]. *)
Theorem C6_indegree_consistency :
  (forall (g : AdjacencySetGraph.t) (v : Z),
      AdjacencySetGraph.reachable g ->
      0 <= v < AdjacencySetGraph.nbvertices g ->
      AdjacencySetGraph.get_indegree v g
      = (g, inr (Inv.count_sources AdjacencySetGraph.get_adjacent_vertices g
                   (AdjacencySetGraph.nbvertices g) v)))
  /\ (forall (g : AdjacencyMatrixGraph.t) (v : Z),
      AdjacencyMatrixGraph.reachable g ->
      0 <= v < AdjacencyMatrixGraph.nbvertices g ->
      AdjacencyMatrixGraph.get_indegree v g
      = (g, inr (Inv.count_sources AdjacencyMatrixGraph.get_adjacent_vertices g
                   (AdjacencyMatrixGraph.nbvertices g) v))).
Proof.
  split.
  - intros g v Hreach Hv. apply set_get_indegree_eq; [|done].
    by apply set_reachable_wf.
  - intros g v Hreach Hv. apply matrix_get_indegree_eq; [|done].
    by apply matrix_reachable_wf.
Qed.

Lemma C6_witness :
  AdjacencySetGraph.get_indegree 1 Demo.star_set
    = (Demo.star_set,
       inr (Inv.count_sources AdjacencySetGraph.get_adjacent_vertices
              Demo.star_set (AdjacencySetGraph.nbvertices Demo.star_set) 1))
  /\ AdjacencyMatrixGraph.get_indegree 3 Demo.main_graph
    = (Demo.main_graph,
       inr (Inv.count_sources AdjacencyMatrixGraph.get_adjacent_vertices
              Demo.main_graph
              (AdjacencyMatrixGraph.nbvertices Demo.main_graph) 3)).
Proof.
  destruct C6_indegree_consistency as [Hs Hm]. split.
  - apply Hs; [apply demo_star_set_reachable | vm_compute; by split].
  - apply Hm; [apply demo_main_graph_reachable | vm_compute; by split].
Defined.

(** C7. Atomicity on error: in both representations, on every graph built
    through the constructor and [add_edge], a call of [add_edge] that raises
    leaves the graph in the state it was in (so whatever is called next runs
    as on that state).  What the adjacency set raises is [OutOfBounds],
    [WeightNotSupported] or [SelfLoopError]; what the adjacency matrix raises
    is [OutOfBounds], [WeightNotSupported] or the [OverflowError] of a weight
    too large for a float64, which is raised before anything is written. *)
Theorem C7_add_edge_atomic :
  (forall (g g' : AdjacencySetGraph.t) (v1 v2 weight : Z) (e : exn),
      AdjacencySetGraph.reachable g ->
      AdjacencySetGraph.add_edge v1 v2 weight g = (g', inl e) ->
      g' = g
      /\ AdjacencySetGraph.reachable g'
      /\ (e = OutOfBounds \/ e = WeightNotSupported \/ e = SelfLoopError))
  /\ (forall (g g' : AdjacencyMatrixGraph.t) (v1 v2 : Z) (weight : Py.number)
       (e : exn),
      AdjacencyMatrixGraph.reachable g ->
      AdjacencyMatrixGraph.add_edge v1 v2 weight g = (g', inl e) ->
      g' = g
      /\ AdjacencyMatrixGraph.reachable g'
      /\ (e = OutOfBounds \/ e = WeightNotSupported \/ e = OverflowError)).
Proof.
  split.
  - intros g g' v1 v2 weight e Hreach.
    rewrite set_add_edge_eq by (by apply set_reachable_wf).
    repeat case_match; intros [= <- <-]; auto.
  - intros g g' v1 v2 weight e Hreach.
    rewrite matrix_add_edge_eq by (by apply matrix_reachable_wf).
    destruct (negb _); [intros [= <- <-]; auto|].
    destruct (Py.lt_one weight); [intros [= <- <-]; auto|].
    destruct (Py.to_float64 weight) as [e'|x] eqn:Hx.
    + intros [= <- <-]. apply to_float64_no_weight_error in Hx. auto.
    + by destruct (AdjacencyMatrixGraph.directed g).
Qed.

Lemma C7_witness :
  (AdjacencySetGraph.add_edge 2 2 1 Demo.star_set).1 = Demo.star_set
  /\ (AdjacencyMatrixGraph.add_edge 0 1 (Py.Int 0) Demo.main_graph).1
     = Demo.main_graph
  /\ (AdjacencyMatrixGraph.add_edge 0 1 (Py.Int (10 ^ 400))
        Demo.undirected_matrix).1
     = Demo.undirected_matrix.
Proof.
  destruct C7_add_edge_atomic as [Hs Hm]. split_and!.
  - eapply (Hs Demo.star_set _ 2 2 1 SelfLoopError);
      [apply demo_star_set_reachable | by vm_compute].
  - eapply (Hm Demo.main_graph _ 0 1 (Py.Int 0) WeightNotSupported);
      [apply demo_main_graph_reachable | by vm_compute].
  - eapply (Hm Demo.undirected_matrix _ 0 1 (Py.Int (10 ^ 400)) OverflowError);
      [apply demo_undirected_matrix_reachable | by vm_compute].
Defined.

(** C8. Idempotence of [add_edge]: in both representations, on every graph
    built through the constructor and [add_edge], when [add_edge(v1, v2, w)]
    returns, the same call made again returns too and leaves the state the
    first call produced. *)
Theorem C8_add_edge_idempotent :
  (forall (g g' : AdjacencySetGraph.t) (v1 v2 weight : Z),
      AdjacencySetGraph.reachable g ->
      AdjacencySetGraph.add_edge v1 v2 weight g = (g', inr tt) ->
      AdjacencySetGraph.add_edge v1 v2 weight g' = (g', inr tt))
  /\ (forall (g g' : AdjacencyMatrixGraph.t) (v1 v2 : Z) (weight : Py.number),
      AdjacencyMatrixGraph.reachable g ->
      AdjacencyMatrixGraph.add_edge v1 v2 weight g = (g', inr tt) ->
      AdjacencyMatrixGraph.add_edge v1 v2 weight g' = (g', inr tt)).
Proof.
  split.
  - intros g g' v1 v2 weight Hreach Hcall.
    assert (Inv.set_wf g') as Hwf'.
    { replace g' with (AdjacencySetGraph.add_edge v1 v2 weight g).1
        by (by rewrite Hcall).
      by apply set_wf_add_edge, set_reachable_wf. }
    apply set_reachable_wf in Hreach as Hwf.
    rewrite set_add_edge_eq in Hcall by done.
    rewrite set_add_edge_eq by done.
    case_bool_decide as Hb; simpl in Hcall; [|done].
    destruct (negb (weight =? 1)) eqn:Hw; [done|].
    case_bool_decide as H12; [done|].
    assert (Z.to_nat v1 <> Z.to_nat v2) as Hk by lia.
    destruct (AdjacencySetGraph.directed g) eqn:Hd;
      injection Hcall as <-; simpl; rewrite Hd;
      rewrite bool_decide_eq_true_2 by done; simpl; f_equal.
    + apply set_link_idemp.
    + rewrite (set_link_comm (Inv.link g v1 v2) v2 v1 v1 v2) by lia.
      by rewrite !set_link_idemp.
  - intros g g' v1 v2 weight Hreach Hcall.
    assert (Inv.matrix_wf g') as Hwf'.
    { replace g' with (AdjacencyMatrixGraph.add_edge v1 v2 weight g).1
        by (by rewrite Hcall).
      by apply matrix_wf_add_edge, matrix_reachable_wf. }
    apply matrix_reachable_wf in Hreach as Hwf.
    rewrite matrix_add_edge_eq in Hcall by done.
    rewrite matrix_add_edge_eq by done.
    case_bool_decide as Hb; cbn [negb] in Hcall; [|done].
    destruct (Py.lt_one weight) eqn:Hw; [done|].
    destruct (Py.to_float64 weight) as [e|x] eqn:Hx; [done|].
    destruct (AdjacencyMatrixGraph.directed g) eqn:Hd;
      injection Hcall as <-;
      cbn [AdjacencyMatrixGraph.nbvertices AdjacencyMatrixGraph.directed
           Inv.store AdjacencyMatrixGraph.set_matrix];
      rewrite Hd; rewrite bool_decide_eq_true_2 by done; cbn [negb]; f_equal.
    + apply matrix_store_idemp.
    + destruct (decide (v1 = v2)) as [->|Hne].
      * by rewrite !matrix_store_idemp.
      * rewrite (matrix_store_comm (Inv.store g v1 v2 x) v2 v1 x v1 v2)
          by lia.
        by rewrite !matrix_store_idemp.
Qed.

Lemma C8_witness :
  AdjacencySetGraph.add_edge 0 1 1
    (AdjacencySetGraph.add_edge 0 1 1 Demo.undirected_set).1
  = ((AdjacencySetGraph.add_edge 0 1 1 Demo.undirected_set).1, inr tt)
  /\ AdjacencyMatrixGraph.add_edge 0 2 (Py.Int 7)
       (AdjacencyMatrixGraph.add_edge 0 2 (Py.Int 7) Demo.undirected_matrix).1
     = ((AdjacencyMatrixGraph.add_edge 0 2 (Py.Int 7)
           Demo.undirected_matrix).1, inr tt).
Proof.
  destruct C8_add_edge_idempotent as [Hs Hm]. split.
  - apply (Hs Demo.undirected_set);
      [apply AdjacencySetGraph.reachable_init | by vm_compute].
  - apply (Hm Demo.undirected_matrix);
      [apply demo_undirected_matrix_reachable | by vm_compute].
Defined.

(** C9. Adjacency set: [get_edge_weight(v1, v2)] returns 1 for every pair of
    arguments and every state of the graph, in or out of bounds, edge or no
    edge: it checks nothing, never raises and never answers that there is no edge. *)
Theorem C9_set_get_edge_weight (g : AdjacencySetGraph.t) (v1 v2 : Z) :
  AdjacencySetGraph.get_edge_weight v1 v2 g = (g, inr 1).
Proof. reflexivity. Qed.

(** C10. Adjacency matrix: [get_edge_weight] checks no bounds of its own.
    On a graph of [N] vertices built through the constructor and [add_edge],
    arguments of [-N, N) are read as indices into the matrix, a negative one
    wrapping to [N + argument]: the call returns the cell of the matrix at
    the wrapped arguments, which is what [get_edge_weight] returns there, and
    after a call [add_edge(a, b, w)] that returned it is the weight stored
    for the edge from [a] to [b] whenever the arguments wrap to [a] and [b]
    (at [-1], the weight of the edge from [N - 1]); an argument below [-N] or
    at least [N] raises [IndexError], not [OutOfBounds]. *)
Theorem C10_matrix_get_edge_weight_unchecked
    (g : AdjacencyMatrixGraph.t) (v1 v2 : Z) :
  AdjacencyMatrixGraph.reachable g ->
  let N := AdjacencyMatrixGraph.nbvertices g in
  (- N <= v1 < N -> - N <= v2 < N ->
   AdjacencyMatrixGraph.get_edge_weight v1 v2 g
     = (g, inr (Inv.cell g (if v1 <? 0 then N + v1 else v1)
                  (if v2 <? 0 then N + v2 else v2)))
   /\ AdjacencyMatrixGraph.get_edge_weight
        (if v1 <? 0 then N + v1 else v1) (if v2 <? 0 then N + v2 else v2) g
      = AdjacencyMatrixGraph.get_edge_weight v1 v2 g
   /\ forall (w : Py.number) (g' : AdjacencyMatrixGraph.t),
        AdjacencyMatrixGraph.add_edge
          (if v1 <? 0 then N + v1 else v1) (if v2 <? 0 then N + v2 else v2)
          w g = (g', inr tt) ->
        exists x,
          Py.to_float64 w = inr x
          /\ AdjacencyMatrixGraph.get_edge_weight v1 v2 g' = (g', inr x))
  /\ (v1 < - N \/ N <= v1 \/ v2 < - N \/ N <= v2 ->
      AdjacencyMatrixGraph.get_edge_weight v1 v2 g = (g, inl IndexError)).
Proof.
  intros Hreach N. apply matrix_reachable_wf in Hreach as Hwf.
  unfold AdjacencyMatrixGraph.get_edge_weight. split.
  - intros Hv1 Hv2. fold (Inv.wrap N v1) (Inv.wrap N v2).
    pose proof (wrap_in_bounds N v1 Hv1) as Hw1.
    pose proof (wrap_in_bounds N v2 Hv2) as Hw2.
    split_and!.
    + by apply matrix_get_wrap.
    + rewrite (matrix_get_wrap g v1 v2) by done.
      by apply matrix_get_in_bounds.
    + intros w g'. rewrite matrix_add_edge_eq by done.
      rewrite bool_decide_eq_true_2 by done. cbn [negb].
      destruct (Py.lt_one w); [done|].
      destruct (Py.to_float64 w) as [e|x] eqn:Hx; [done|].
      destruct (matrix_added_wf g (Inv.wrap N v1) (Inv.wrap N v2) x Hwf)
        as (Hwf' & Hnb & _).
      intros Hg'. exists x. split; [done|].
      assert (g' = (if AdjacencyMatrixGraph.directed g
                    then Inv.store g (Inv.wrap N v1) (Inv.wrap N v2) x
                    else Inv.store
                           (Inv.store g (Inv.wrap N v1) (Inv.wrap N v2) x)
                           (Inv.wrap N v2) (Inv.wrap N v1) x)) as ->
        by (destruct (AdjacencyMatrixGraph.directed g); congruence).
      rewrite (matrix_get_wrap _ v1 v2) by (done || (rewrite Hnb; done)).
      rewrite Hnb. fold N.
      rewrite matrix_cell_added by (done || lia).
      by rewrite bool_decide_eq_true_2 by auto.
  - by apply matrix_get_outside.
Qed.

Lemma C10_witness :
  (AdjacencyMatrixGraph.get_edge_weight (-2) (-1) Demo.main_graph
     = (Demo.main_graph, inr (Inv.cell Demo.main_graph 2 3))
   /\ AdjacencyMatrixGraph.get_edge_weight 2 3 Demo.main_graph
      = AdjacencyMatrixGraph.get_edge_weight (-2) (-1) Demo.main_graph
   /\ forall (w : Py.number) (g' : AdjacencyMatrixGraph.t),
        AdjacencyMatrixGraph.add_edge 2 3 w Demo.main_graph = (g', inr tt) ->
        exists x,
          Py.to_float64 w = inr x
          /\ AdjacencyMatrixGraph.get_edge_weight (-2) (-1) g' = (g', inr x))
  /\ AdjacencyMatrixGraph.get_edge_weight 0 4 Demo.main_graph
     = (Demo.main_graph, inl IndexError)
  /\ AdjacencyMatrixGraph.get_edge_weight (-5) 0 Demo.main_graph
     = (Demo.main_graph, inl IndexError).
Proof.
  split; [|split].
  - apply (C10_matrix_get_edge_weight_unchecked Demo.main_graph (-2) (-1)
             demo_main_graph_reachable); vm_compute; by split.
  - apply (C10_matrix_get_edge_weight_unchecked Demo.main_graph 0 4
             demo_main_graph_reachable).
    vm_compute. right; right; right. discriminate.
  - apply (C10_matrix_get_edge_weight_unchecked Demo.main_graph (-5) 0
             demo_main_graph_reachable).
    vm_compute. by left.
Defined.

(** The weight that [main] stores for the edge from 2 to 3 is what
    [get_edge_weight(-2, -1)] returns. *)
Example main_negative_indices :
  (AdjacencyMatrixGraph.get_edge_weight (-2) (-1) Demo.main_graph).2
  = Py.float_of_int 10.
Proof. by vm_compute. Qed.

(** * Further properties of the code *)

(** ** Ordering of the adjacency lists *)

Lemma strictly_sorted (l : list Z) :
  StronglySorted Z.le l -> NoDup l -> StronglySorted Z.lt l.
Proof.
  induction 1 as [|x l Hl IH Hx]; intros Hnd; constructor.
  - apply IH. by apply NoDup_cons in Hnd as [_ ?].
  - apply NoDup_cons in Hnd as [Hnotin _].
    rewrite Forall_forall in Hx |- *. intros y Hy.
    specialize (Hx y Hy). assert (x <> y) by (intros ->; done). lia.
Qed.

Lemma sorted_strictly (s : gset Z) : StronglySorted Z.lt (Py.sorted s).
Proof.
  apply strictly_sorted.
  - apply StronglySorted_merge_sort; apply _.
  - unfold Py.sorted. rewrite merge_sort_Permutation. apply NoDup_elements.
Qed.

Lemma range_strictly (n : Z) : StronglySorted Z.lt (Py.range n).
Proof.
  unfold Py.range. generalize 0.
  induction (Z.to_nat n) as [|k IH] eqn:Hk in n |- *; intros m.
  - rewrite seqZ_nil by lia. constructor.
  - rewrite seqZ_cons by lia. constructor.
    + apply IH. lia.
    + apply Forall_seqZ. lia.
Qed.

Lemma filter_strictly (p : Z -> bool) (l : list Z) :
  StronglySorted Z.lt l -> StronglySorted Z.lt (List.filter p l).
Proof.
  induction 1 as [|x l Hl IH Hx]; simpl; [constructor|].
  destruct (p x); [|done]. constructor; [done|].
  rewrite Forall_forall in Hx |- *. intros y Hy.
  apply Hx. apply list_elem_of_In in Hy. apply filter_In in Hy as [Hy _].
  by apply list_elem_of_In.
Qed.

Lemma strictly_sorted_unique (l1 l2 : list Z) :
  StronglySorted Z.lt l1 -> StronglySorted Z.lt l2 ->
  (forall x, x ∈ l1 <-> x ∈ l2) -> l1 = l2.
Proof.
  intros H1 H2 Heq. apply (StronglySorted_unique_strong Z.lt); [|done..|].
  - intros x y _ _ Hxy Hyx. lia.
  - apply NoDup_Permutation; [| |done].
    + clear -H1. induction H1 as [|x l _ IH Hx]; constructor; [|done].
      rewrite Forall_forall in Hx. intros Hin. specialize (Hx x Hin). lia.
    + clear -H2. induction H2 as [|x l _ IH Hx]; constructor; [|done].
      rewrite Forall_forall in Hx. intros Hin. specialize (Hx x Hin). lia.
Qed.

(** ** What the adjacency sets and the matrix cells of a constructed graph hold *)

Lemma set_adjacency_init (n : Z) (d : bool) (u : Z) :
  Inv.adjacency (AdjacencySetGraph.init n d) u = ∅.
Proof.
  unfold Inv.adjacency, AdjacencySetGraph.init; simpl.
  rewrite set_init_vertex_list; simpl. rewrite list_lookup_fmap.
  by destruct (Py.range n !! Z.to_nat u).
Qed.

Lemma set_add_edge_state (g : AdjacencySetGraph.t) (v1 v2 weight : Z) :
  Inv.set_wf g ->
  (AdjacencySetGraph.add_edge v1 v2 weight g).1 = g
  \/ ((0 <= v1 < AdjacencySetGraph.nbvertices g
       /\ 0 <= v2 < AdjacencySetGraph.nbvertices g)
      /\ weight = 1 /\ v1 <> v2
      /\ AdjacencySetGraph.add_edge v1 v2 weight g
         = (if AdjacencySetGraph.directed g then Inv.link g v1 v2
            else Inv.link (Inv.link g v1 v2) v2 v1, inr tt)).
Proof.
  intros Hwf. rewrite set_add_edge_eq by done.
  case_bool_decide as Hb; simpl; [|by left].
  destruct (Z.eqb_spec weight 1) as [Hw|Hw]; simpl; [|by left].
  case_bool_decide as H12; simpl; [by left|].
  right. by destruct (AdjacencySetGraph.directed g).
Qed.

Lemma set_adjacency_added (g : AdjacencySetGraph.t) (v1 v2 u x : Z) :
  Inv.set_wf g ->
  0 <= v1 < AdjacencySetGraph.nbvertices g ->
  0 <= v2 < AdjacencySetGraph.nbvertices g ->
  0 <= u ->
  x ∈ Inv.adjacency
        (if AdjacencySetGraph.directed g then Inv.link g v1 v2
         else Inv.link (Inv.link g v1 v2) v2 v1) u
  <-> x ∈ Inv.adjacency g u
      \/ (u = v1 /\ x = v2)
      \/ (AdjacencySetGraph.directed g = false /\ u = v2 /\ x = v1).
Proof.
  intros Hwf Hv1 Hv2 Hu.
  pose proof (set_wf_link g v1 v2 Hwf) as Hwf1.
  destruct (AdjacencySetGraph.directed g) eqn:Hd.
  - rewrite set_adjacency_link by done.
    case_bool_decide; rewrite ?elem_of_union, ?elem_of_singleton;
      naive_solver.
  - rewrite !set_adjacency_link by done.
    repeat case_bool_decide; rewrite ?elem_of_union, ?elem_of_singleton;
      naive_solver.
Qed.

Lemma set_reachable_adjacency (g : AdjacencySetGraph.t) :
  AdjacencySetGraph.reachable g ->
  forall u x : Z, 0 <= u -> x ∈ Inv.adjacency g u ->
    (0 <= x < AdjacencySetGraph.nbvertices g
     /\ u < AdjacencySetGraph.nbvertices g /\ x <> u)
    /\ (AdjacencySetGraph.directed g = false -> u ∈ Inv.adjacency g x).
Proof.
  induction 1 as [n d|g v1 v2 weight Hreach IH]; intros u x Hu.
  - by rewrite set_adjacency_init.
  - apply set_reachable_wf in Hreach as Hwf.
    destruct (set_add_edge_state g v1 v2 weight Hwf)
      as [->|([Hv1 Hv2] & _ & H12 & ->)]; [by apply IH|].
    simpl.
    assert (AdjacencySetGraph.directed
              (if AdjacencySetGraph.directed g then Inv.link g v1 v2
               else Inv.link (Inv.link g v1 v2) v2 v1)
            = AdjacencySetGraph.directed g) as ->
      by (by destruct (AdjacencySetGraph.directed g) eqn:E).
    assert (AdjacencySetGraph.nbvertices
              (if AdjacencySetGraph.directed g then Inv.link g v1 v2
               else Inv.link (Inv.link g v1 v2) v2 v1)
            = AdjacencySetGraph.nbvertices g) as ->
      by (by destruct (AdjacencySetGraph.directed g) eqn:E).
    rewrite set_adjacency_added by done.
    intros Hx.
    assert (0 <= x < AdjacencySetGraph.nbvertices g
            /\ u < AdjacencySetGraph.nbvertices g /\ x <> u) as Hbounds.
    { destruct Hx as [Hx|[[-> ->]|(_ & -> & ->)]]; [|lia..].
      by apply (IH u x). }
    split; [done|]. intros Hd.
    rewrite set_adjacency_added by (done || lia).
    destruct Hx as [Hx|[[-> ->]|(_ & -> & ->)]]; [|auto..].
    left. by apply (IH u x).
Qed.

Lemma matrix_cell_init (n : Z) (d : bool) (g : AdjacencyMatrixGraph.t) (i j : Z) :
  AdjacencyMatrixGraph.init n d = inr g -> Inv.cell g i j = Py.fzero.
Proof.
  unfold AdjacencyMatrixGraph.init, AdjacencyMatrixGraph.zeros.
  destruct ((n <? 0) || (n <? 0)); [done|]. intros [= <-].
  unfold Inv.cell; simpl.
  destruct (replicate _ _ !! Z.to_nat i) as [row|] eqn:Hrow; [|done].
  apply lookup_replicate in Hrow as [-> _].
  destruct (replicate _ _ !! Z.to_nat j) as [x|] eqn:Hx; [|done].
  by apply lookup_replicate in Hx as [-> _].
Qed.

Lemma matrix_add_edge_state (g : AdjacencyMatrixGraph.t) (v1 v2 : Z)
    (weight : Py.number) :
  Inv.matrix_wf g ->
  (AdjacencyMatrixGraph.add_edge v1 v2 weight g).1 = g
  \/ exists x : Py.float64,
       (0 <= v1 < AdjacencyMatrixGraph.nbvertices g
        /\ 0 <= v2 < AdjacencyMatrixGraph.nbvertices g)
       /\ Py.lt_one weight = false
       /\ Py.to_float64 weight = inr x
       /\ AdjacencyMatrixGraph.add_edge v1 v2 weight g
          = (if AdjacencyMatrixGraph.directed g then Inv.store g v1 v2 x
             else Inv.store (Inv.store g v1 v2 x) v2 v1 x, inr tt).
Proof.
  intros Hwf. rewrite matrix_add_edge_eq by done.
  case_bool_decide as Hb; cbn [negb]; [|by left].
  destruct (Py.lt_one weight) eqn:Hw; [by left|].
  destruct (Py.to_float64 weight) as [e|x] eqn:Hx; [by left|].
  right. exists x. by destruct (AdjacencyMatrixGraph.directed g).
Qed.

(** A cell of a constructed matrix holds 0.0, NaN or a value of at least 1,
    and the matrix of an undirected graph is symmetric. *)
Lemma matrix_reachable_cells (g : AdjacencyMatrixGraph.t) :
  AdjacencyMatrixGraph.reachable g ->
  forall i j : Z, 0 <= i -> 0 <= j ->
    (Inv.cell g i j = Py.fzero
     \/ Inv.cell g i j = Py.nan
     \/ Py.float_ge_one (Inv.cell g i j) = true)
    /\ (AdjacencyMatrixGraph.directed g = false ->
        Inv.cell g i j = Inv.cell g j i).
Proof.
  induction 1 as [n d g Hinit|g v1 v2 weight Hreach IH]; intros i j Hi Hj.
  - rewrite !(matrix_cell_init n d g) by done. auto.
  - apply matrix_reachable_wf in Hreach as Hwf.
    destruct (matrix_add_edge_state g v1 v2 weight Hwf)
      as [->|(x & [Hv1 Hv2] & Hw & Hx & ->)]; [by apply IH|].
    cbn [fst].
    destruct (matrix_added_wf g v1 v2 x Hwf) as (_ & _ & ->).
    rewrite !matrix_cell_added by done.
    pose proof (stored_weight_cases weight x Hw Hx) as Hcases.
    destruct (IH i j Hi Hj) as [Hcell Hsym].
    split.
    + case_bool_decide; [|done]. destruct Hcases; auto.
    + intros Hd. repeat case_bool_decide; auto; exfalso; naive_solver.
Qed.

(** A cell of a constructed matrix is above 0 exactly when it is at least 1. *)
Lemma matrix_reachable_positive (g : AdjacencyMatrixGraph.t) (i j : Z) :
  AdjacencyMatrixGraph.reachable g -> 0 <= i -> 0 <= j ->
  Py.gt_zero (Inv.cell g i j) = Py.float_ge_one (Inv.cell g i j).
Proof.
  intros Hreach Hi Hj.
  destruct (matrix_reachable_cells g Hreach i j Hi Hj) as [[->|[->|Hge]] _];
    [by vm_compute..|].
  by rewrite Hge, float_ge_one_gt_zero.
Qed.

(** ** Nodes and adjacency lists *)

(** X1. [Node.add_edge(vertex)] raises [SelfLoopError] and leaves the node as
    it was when [vertex] is the node's own identifier; otherwise it returns,
    keeps the identifier, and the node's adjacent vertices are then [vertex]
    and the ones it had. *)
Theorem X1_node_add_edge (node : Node.t) (vertex : Z) :
  (Node.vertexid node = vertex ->
   Node.add_edge vertex node = (node, inl SelfLoopError))
  /\ (Node.vertexid node <> vertex ->
      exists node' l l',
        Node.add_edge vertex node = (node', inr tt)
        /\ Node.vertexid node' = Node.vertexid node
        /\ Node.get_adjacent_vertices node = (node, inr l)
        /\ Node.get_adjacent_vertices node' = (node', inr l')
        /\ forall x, x ∈ l' <-> x = vertex \/ x ∈ l).
Proof.
  unfold Node.add_edge, Node.get_adjacent_vertices. py_unfold. split.
  - intros Hid. by rewrite bool_decide_eq_true_2.
  - intros Hid. rewrite bool_decide_eq_false_2 by done.
    eexists _, _, _. split_and!; try done.
    intros x. simpl. rewrite !sorted_contains, elem_of_union, elem_of_singleton.
    done.
Qed.

Lemma X1_witness :
  Node.add_edge 2 (Node.init 2) = (Node.init 2, inl SelfLoopError)
  /\ exists node' l l',
       Node.add_edge 3 (Node.init 2) = (node', inr tt)
       /\ Node.vertexid node' = Node.vertexid (Node.init 2)
       /\ Node.get_adjacent_vertices (Node.init 2) = (Node.init 2, inr l)
       /\ Node.get_adjacent_vertices node' = (node', inr l')
       /\ forall x, x ∈ l' <-> x = 3 \/ x ∈ l.
Proof.
  split.
  - by apply (X1_node_add_edge (Node.init 2) 2).
  - by apply (X1_node_add_edge (Node.init 2) 3).
Defined.

(** X2. [Node.get_adjacent_vertices()] leaves the node as it was and returns
    the members of its adjacency set in strictly ascending order, each once. *)
Theorem X2_node_get_adjacent_vertices (node : Node.t) :
  exists l,
    Node.get_adjacent_vertices node = (node, inr l)
    /\ StronglySorted Z.lt l
    /\ forall x, x ∈ l <-> x ∈ Node.adjacency_set node.
Proof.
  eexists. split; [done|]. split.
  - apply sorted_strictly.
  - apply sorted_contains.
Qed.

(** X3. Adjacency set, on a graph built through the constructor and
    [add_edge]: for an in-bounds [v], [get_adjacent_vertices(v)] returns a
    strictly ascending list of vertices of [0, N) that does not hold [v]
    itself. *)
Theorem X3_set_adjacent_vertices_well_formed
    (g : AdjacencySetGraph.t) (v : Z) :
  AdjacencySetGraph.reachable g ->
  0 <= v < AdjacencySetGraph.nbvertices g ->
  exists l,
    AdjacencySetGraph.get_adjacent_vertices v g = (g, inr l)
    /\ StronglySorted Z.lt l
    /\ Forall (fun x => 0 <= x < AdjacencySetGraph.nbvertices g /\ x <> v) l.
Proof.
  intros Hreach Hv. apply set_reachable_wf in Hreach as Hwf.
  rewrite set_get_adjacent_vertices_eq by done.
  rewrite bool_decide_eq_true_2 by done.
  eexists. split; [done|]. split; [apply sorted_strictly|].
  apply Forall_forall. intros x Hx. apply sorted_contains in Hx.
  destruct (set_reachable_adjacency g Hreach v x) as [(? & ? & ?) _];
    [lia|done|done].
Qed.

Lemma X3_witness :
  exists l,
    AdjacencySetGraph.get_adjacent_vertices 1 Demo.star_set
      = (Demo.star_set, inr l)
    /\ StronglySorted Z.lt l
    /\ Forall
         (fun x => 0 <= x < AdjacencySetGraph.nbvertices Demo.star_set
                   /\ x <> 1) l.
Proof.
  apply (X3_set_adjacent_vertices_well_formed Demo.star_set 1);
    [apply demo_star_set_reachable | vm_compute; by split].
Defined.

(** X4. Adjacency set, undirected graph built through the constructor and
    [add_edge]: adjacency is symmetric, [v2] appears in
    [get_adjacent_vertices(v1)] exactly when [v1] appears in
    [get_adjacent_vertices(v2)]. *)
Theorem X4_set_undirected_symmetric (g : AdjacencySetGraph.t) (v1 v2 : Z) :
  AdjacencySetGraph.reachable g ->
  AdjacencySetGraph.directed g = false ->
  0 <= v1 < AdjacencySetGraph.nbvertices g ->
  0 <= v2 < AdjacencySetGraph.nbvertices g ->
  Inv.appears_in_adjacent AdjacencySetGraph.get_adjacent_vertices g v1 v2
  = Inv.appears_in_adjacent AdjacencySetGraph.get_adjacent_vertices g v2 v1.
Proof.
  intros Hreach Hd Hv1 Hv2. apply set_reachable_wf in Hreach as Hwf.
  unfold Inv.appears_in_adjacent, Py.contains.
  rewrite !set_get_adjacent_vertices_eq by done.
  rewrite !bool_decide_eq_true_2 by done. simpl.
  apply bool_decide_ext. rewrite !sorted_contains.
  split; intros Hin.
  - by apply (set_reachable_adjacency g Hreach v1 v2); [lia|..].
  - by apply (set_reachable_adjacency g Hreach v2 v1); [lia|..].
Qed.

Lemma X4_witness :
  Inv.appears_in_adjacent AdjacencySetGraph.get_adjacent_vertices
    Demo.star_set 1 3
  = Inv.appears_in_adjacent AdjacencySetGraph.get_adjacent_vertices
      Demo.star_set 3 1.
Proof.
  apply (X4_set_undirected_symmetric Demo.star_set 1 3);
    [apply demo_star_set_reachable | reflexivity
    | vm_compute; by split | vm_compute; by split].
Defined.

(** ** Weights and adjacency in the matrix *)

(** X5. Adjacency matrix, undirected graph built through the constructor and
    [add_edge]: the weights are symmetric, [get_edge_weight(v1, v2)] and
    [get_edge_weight(v2, v1)] return the same value. *)
Theorem X5_matrix_undirected_symmetric
    (g : AdjacencyMatrixGraph.t) (v1 v2 : Z) :
  AdjacencyMatrixGraph.reachable g ->
  AdjacencyMatrixGraph.directed g = false ->
  0 <= v1 < AdjacencyMatrixGraph.nbvertices g ->
  0 <= v2 < AdjacencyMatrixGraph.nbvertices g ->
  exists w,
    AdjacencyMatrixGraph.get_edge_weight v1 v2 g = (g, inr w)
    /\ AdjacencyMatrixGraph.get_edge_weight v2 v1 g = (g, inr w).
Proof.
  intros Hreach Hd Hv1 Hv2. apply matrix_reachable_wf in Hreach as Hwf.
  unfold AdjacencyMatrixGraph.get_edge_weight.
  rewrite !matrix_get_in_bounds by done.
  eexists. split; [done|]. do 2 f_equal. symmetry.
  by apply (matrix_reachable_cells g Hreach v1 v2); [lia..|].
Qed.

Lemma X5_witness :
  exists w,
    AdjacencyMatrixGraph.get_edge_weight 0 2
      (AdjacencyMatrixGraph.add_edge 0 2 (Py.Int 7) Demo.undirected_matrix).1
    = ((AdjacencyMatrixGraph.add_edge 0 2 (Py.Int 7)
          Demo.undirected_matrix).1, inr w)
    /\ AdjacencyMatrixGraph.get_edge_weight 2 0
         (AdjacencyMatrixGraph.add_edge 0 2 (Py.Int 7)
            Demo.undirected_matrix).1
       = ((AdjacencyMatrixGraph.add_edge 0 2 (Py.Int 7)
             Demo.undirected_matrix).1, inr w).
Proof.
  apply (X5_matrix_undirected_symmetric
           (AdjacencyMatrixGraph.add_edge 0 2 (Py.Int 7)
              Demo.undirected_matrix).1 0 2);
    [apply AdjacencyMatrixGraph.reachable_add_edge,
       demo_undirected_matrix_reachable
    | reflexivity | vm_compute; by split | vm_compute; by split].
Defined.

(** X6. Adjacency matrix, on a graph built through the constructor and
    [add_edge]: for in-bounds vertices [get_edge_weight] returns 0.0 (no
    edge), a value of at least 1, or NaN; never a negative value nor one
    between 0 and 1.  NaN is there because [add_edge] takes it for a weight:
    the test [weight < 1] is false of it. *)
Theorem X6_matrix_weight_zero_or_positive
    (g : AdjacencyMatrixGraph.t) (v1 v2 : Z) :
  AdjacencyMatrixGraph.reachable g ->
  0 <= v1 < AdjacencyMatrixGraph.nbvertices g ->
  0 <= v2 < AdjacencyMatrixGraph.nbvertices g ->
  exists w,
    AdjacencyMatrixGraph.get_edge_weight v1 v2 g = (g, inr w)
    /\ (w = Py.fzero \/ Py.float_ge_one w = true \/ w = Py.nan).
Proof.
  intros Hreach Hv1 Hv2. apply matrix_reachable_wf in Hreach as Hwf.
  unfold AdjacencyMatrixGraph.get_edge_weight.
  rewrite matrix_get_in_bounds by done.
  eexists. split; [done|].
  destruct (matrix_reachable_cells g Hreach v1 v2) as [[?|[?|?]] _];
    auto; lia.
Qed.

Lemma X6_witness :
  exists w,
    AdjacencyMatrixGraph.get_edge_weight 2 3 Demo.main_graph
      = (Demo.main_graph, inr w)
    /\ (w = Py.fzero \/ Py.float_ge_one w = true \/ w = Py.nan).
Proof.
  apply (X6_matrix_weight_zero_or_positive Demo.main_graph 2 3);
    [apply demo_main_graph_reachable
    | vm_compute; by split | vm_compute; by split].
Defined.

(** NaN is a weight that [add_edge] accepts, stores and [get_edge_weight]
    returns; the edge it was given for is not listed as adjacent. *)
Example nan_weight_is_stored :
  exists g',
    AdjacencyMatrixGraph.add_edge 0 1 (Py.Float Py.nan) Demo.directed_matrix
      = (g', inr tt)
    /\ AdjacencyMatrixGraph.get_edge_weight 0 1 g' = (g', inr Py.nan)
    /\ AdjacencyMatrixGraph.get_adjacent_vertices 0 g' = (g', inr []).
Proof. eexists. split_and!; by vm_compute. Qed.

(** X7. Adjacency matrix, on a graph built through the constructor and
    [add_edge]: for an in-bounds [v], [get_adjacent_vertices(v)] returns, in
    strictly ascending order, exactly the vertices [i] of [0, N) for which
    [get_edge_weight(v, i)] is at least 1. *)
Theorem X7_matrix_adjacent_vertices_are_weighted
    (g : AdjacencyMatrixGraph.t) (v : Z) :
  AdjacencyMatrixGraph.reachable g ->
  0 <= v < AdjacencyMatrixGraph.nbvertices g ->
  exists l,
    AdjacencyMatrixGraph.get_adjacent_vertices v g = (g, inr l)
    /\ StronglySorted Z.lt l
    /\ forall i,
         i ∈ l
         <-> 0 <= i < AdjacencyMatrixGraph.nbvertices g
             /\ exists w,
                  AdjacencyMatrixGraph.get_edge_weight v i g = (g, inr w)
                  /\ Py.float_ge_one w = true.
Proof.
  intros Hreach Hv. apply matrix_reachable_wf in Hreach as Hwf.
  rewrite matrix_get_adjacent_vertices_eq by done.
  rewrite bool_decide_eq_true_2 by done.
  eexists. split; [done|]. split.
  - apply filter_strictly, range_strictly.
  - intros i. rewrite list_elem_of_In, filter_In, <- list_elem_of_In.
    unfold Py.range. rewrite elem_of_seqZ.
    unfold AdjacencyMatrixGraph.get_edge_weight. split.
    + intros [Hi Hpos]. split; [lia|].
      rewrite matrix_get_in_bounds by (done || lia).
      eexists. split; [done|].
      by rewrite <- matrix_reachable_positive by (done || lia).
    + intros [Hi (w & Hget & Hw)]. split; [lia|].
      rewrite matrix_get_in_bounds in Hget by done.
      injection Hget as <-.
      by rewrite matrix_reachable_positive by (done || lia).
Qed.

Lemma X7_witness :
  exists l,
    AdjacencyMatrixGraph.get_adjacent_vertices 0 Demo.main_graph
      = (Demo.main_graph, inr l)
    /\ StronglySorted Z.lt l
    /\ forall i,
         i ∈ l
         <-> 0 <= i < AdjacencyMatrixGraph.nbvertices Demo.main_graph
             /\ exists w,
                  AdjacencyMatrixGraph.get_edge_weight 0 i Demo.main_graph
                    = (Demo.main_graph, inr w)
                  /\ Py.float_ge_one w = true.
Proof.
  apply (X7_matrix_adjacent_vertices_are_weighted Demo.main_graph 0);
    [apply demo_main_graph_reachable | vm_compute; by split].
Defined.

(** ** When [add_edge] returns *)

Lemma set_add_edge_returns (g g' : AdjacencySetGraph.t) (v1 v2 weight : Z) :
  Inv.set_wf g ->
  AdjacencySetGraph.add_edge v1 v2 weight g = (g', inr tt) ->
  (0 <= v1 < AdjacencySetGraph.nbvertices g
   /\ 0 <= v2 < AdjacencySetGraph.nbvertices g)
  /\ weight = 1 /\ v1 <> v2
  /\ g' = (if AdjacencySetGraph.directed g then Inv.link g v1 v2
           else Inv.link (Inv.link g v1 v2) v2 v1).
Proof.
  intros Hwf. rewrite set_add_edge_eq by done.
  case_bool_decide as Hb; simpl; [|done].
  destruct (Z.eqb_spec weight 1) as [Hw|Hw]; simpl; [|done].
  case_bool_decide as H12; simpl; [done|].
  by destruct (AdjacencySetGraph.directed g); intros [= <-].
Qed.

Lemma matrix_add_edge_returns
    (g g' : AdjacencyMatrixGraph.t) (v1 v2 : Z) (weight : Py.number) :
  Inv.matrix_wf g ->
  AdjacencyMatrixGraph.add_edge v1 v2 weight g = (g', inr tt) ->
  exists x : Py.float64,
    (0 <= v1 < AdjacencyMatrixGraph.nbvertices g
     /\ 0 <= v2 < AdjacencyMatrixGraph.nbvertices g)
    /\ Py.lt_one weight = false
    /\ Py.to_float64 weight = inr x
    /\ g' = (if AdjacencyMatrixGraph.directed g then Inv.store g v1 v2 x
             else Inv.store (Inv.store g v1 v2 x) v2 v1 x).
Proof.
  intros Hwf. rewrite matrix_add_edge_eq by done.
  case_bool_decide as Hb; cbn [negb]; [|done].
  destruct (Py.lt_one weight) eqn:Hw; [done|].
  destruct (Py.to_float64 weight) as [e|x] eqn:Hx; [done|].
  intros Hg'. exists x.
  by destruct (AdjacencyMatrixGraph.directed g); injection Hg' as <-.
Qed.

(** ** A graph just constructed *)

Lemma filter_none (p : Z -> bool) (l : list Z) :
  (forall x, x ∈ l -> p x = false) -> List.filter p l = [].
Proof.
  induction l as [|y l IH]; intros Hp; simpl; [done|].
  rewrite (Hp y) by left. apply IH. intros x Hx. apply Hp. by right.
Qed.

Lemma sorted_empty : Py.sorted ∅ = [].
Proof. unfold Py.sorted. by rewrite elements_empty. Qed.

(** X8. A graph just constructed has no edge.  For the adjacency set and
    every in-bounds [v], [get_adjacent_vertices(v)] is the empty list and
    [get_indegree(v)] is 0; the adjacency matrix is constructed for every
    vertex count that is not negative and answers the same, with
    [get_edge_weight] 0 everywhere. *)
Theorem X8_fresh_graph_has_no_edge :
  (forall (n : Z) (d : bool) (v : Z),
      0 <= v < n ->
      AdjacencySetGraph.get_adjacent_vertices v (AdjacencySetGraph.init n d)
        = (AdjacencySetGraph.init n d, inr [])
      /\ AdjacencySetGraph.get_indegree v (AdjacencySetGraph.init n d)
        = (AdjacencySetGraph.init n d, inr 0))
  /\ (forall (n : Z) (d : bool),
      0 <= n ->
      exists g,
        AdjacencyMatrixGraph.init n d = inr g
        /\ forall v1 v2 : Z,
             0 <= v1 < n -> 0 <= v2 < n ->
             AdjacencyMatrixGraph.get_adjacent_vertices v1 g = (g, inr [])
             /\ AdjacencyMatrixGraph.get_indegree v1 g = (g, inr 0)
             /\ AdjacencyMatrixGraph.get_edge_weight v1 v2 g
                = (g, inr Py.fzero)).
Proof.
  split.
  - intros n d v Hv. pose proof (set_wf_init n d) as Hwf.
    assert (forall u, AdjacencySetGraph.get_adjacent_vertices u
                        (AdjacencySetGraph.init n d)
                      = if bool_decide (0 <= u < n)
                        then (AdjacencySetGraph.init n d, inr [])
                        else (AdjacencySetGraph.init n d, inl OutOfBounds))
      as Hadj.
    { intros u. rewrite set_get_adjacent_vertices_eq by done. simpl.
      by rewrite set_adjacency_init, sorted_empty. }
    split.
    + rewrite Hadj. by rewrite bool_decide_eq_true_2.
    + rewrite set_get_indegree_eq by done. do 2 f_equal.
      unfold Inv.count_sources. rewrite filter_none; [done|].
      intros u _. unfold Inv.appears_in_adjacent. rewrite Hadj.
      by case_bool_decide.
  - intros n d Hn.
    destruct (AdjacencyMatrixGraph.init n d) as [e|g] eqn:Hinit.
    { unfold AdjacencyMatrixGraph.init, AdjacencyMatrixGraph.zeros in Hinit.
      rewrite orb_diag in Hinit. destruct (Z.ltb_spec n 0); [lia|done]. }
    exists g. split; [done|]. intros v1 v2 Hv1 Hv2.
    pose proof (matrix_wf_init n d g Hinit) as Hwf.
    assert (AdjacencyMatrixGraph.nbvertices g = n) as Hnb.
    { unfold AdjacencyMatrixGraph.init in Hinit.
      destruct (AdjacencyMatrixGraph.zeros n n); [done|].
      by injection Hinit as <-. }
    split_and!.
    + rewrite matrix_get_adjacent_vertices_eq by done.
      rewrite bool_decide_eq_true_2 by lia. do 2 f_equal.
      apply filter_none. intros i _. by rewrite (matrix_cell_init n d).
    + rewrite matrix_get_indegree_eq by (done || lia). do 2 f_equal.
      unfold Inv.count_sources. rewrite filter_none; [done|].
      intros u Hu. apply elem_of_seqZ in Hu.
      rewrite matrix_appears_in_adjacent by (done || lia).
      by rewrite (matrix_cell_init n d).
    + unfold AdjacencyMatrixGraph.get_edge_weight.
      rewrite matrix_get_in_bounds by (done || lia).
      by rewrite (matrix_cell_init n d).
Qed.

Lemma X8_witness :
  (AdjacencySetGraph.get_adjacent_vertices 2 (AdjacencySetGraph.init 4 false)
     = (AdjacencySetGraph.init 4 false, inr [])
   /\ AdjacencySetGraph.get_indegree 2 (AdjacencySetGraph.init 4 false)
     = (AdjacencySetGraph.init 4 false, inr 0))
  /\ exists g,
       AdjacencyMatrixGraph.init 4 true = inr g
       /\ forall v1 v2 : Z,
            0 <= v1 < 4 -> 0 <= v2 < 4 ->
            AdjacencyMatrixGraph.get_adjacent_vertices v1 g = (g, inr [])
            /\ AdjacencyMatrixGraph.get_indegree v1 g = (g, inr 0)
            /\ AdjacencyMatrixGraph.get_edge_weight v1 v2 g
               = (g, inr Py.fzero).
Proof.
  destruct X8_fresh_graph_has_no_edge as [Hs Hm]. split.
  - apply Hs. lia.
  - apply Hm. lia.
Defined.

(** ** What a call of [add_edge] that returns changes, and what it keeps *)

(** X9. Adjacency matrix, on a graph built through the constructor and
    [add_edge]: after [add_edge(v1, v2, w)] has returned, [get_edge_weight]
    is the float64 that [w] was stored as (a float as it is, an integer
    rounded to the nearest float64) at [(v1, v2)], and at [(v2, v1)] when the
    graph is undirected, and what it was before the call at every other
    in-bounds pair. *)
Theorem X9_matrix_add_edge_changes_only_its_cells
    (g g' : AdjacencyMatrixGraph.t) (v1 v2 : Z) (w : Py.number) (a b : Z) :
  AdjacencyMatrixGraph.reachable g ->
  AdjacencyMatrixGraph.add_edge v1 v2 w g = (g', inr tt) ->
  0 <= a < AdjacencyMatrixGraph.nbvertices g ->
  0 <= b < AdjacencyMatrixGraph.nbvertices g ->
  exists x old,
    Py.to_float64 w = inr x
    /\ AdjacencyMatrixGraph.get_edge_weight a b g = (g, inr old)
    /\ AdjacencyMatrixGraph.get_edge_weight a b g'
       = (g', inr (if bool_decide
                        ((a = v1 /\ b = v2)
                         \/ (AdjacencyMatrixGraph.directed g = false
                             /\ a = v2 /\ b = v1))
                   then x else old)).
Proof.
  intros Hreach Hcall Ha Hb. apply matrix_reachable_wf in Hreach as Hwf.
  destruct (matrix_add_edge_returns g g' v1 v2 w Hwf Hcall)
    as (x & [Hv1 Hv2] & Hw & Hx & ->).
  destruct (matrix_added_wf g v1 v2 x Hwf) as (Hwf' & Hnb & _).
  unfold AdjacencyMatrixGraph.get_edge_weight.
  exists x, (Inv.cell g a b).
  split; [done|]. split; [by apply matrix_get_in_bounds|].
  rewrite matrix_get_in_bounds by (done || (rewrite Hnb; done)).
  by rewrite matrix_cell_added by (done || lia).
Qed.

Lemma X9_witness :
  exists x old,
    Py.to_float64 (Py.Int 9) = inr x
    /\ AdjacencyMatrixGraph.get_edge_weight 1 3 Demo.main_graph
       = (Demo.main_graph, inr old)
    /\ AdjacencyMatrixGraph.get_edge_weight 1 3
         (AdjacencyMatrixGraph.add_edge 1 3 (Py.Int 9) Demo.main_graph).1
       = ((AdjacencyMatrixGraph.add_edge 1 3 (Py.Int 9) Demo.main_graph).1,
          inr (if bool_decide
                    ((1 = 1 /\ 3 = 3)
                     \/ (AdjacencyMatrixGraph.directed Demo.main_graph = false
                         /\ 1 = 3 /\ 3 = 1))
               then x else old)).
Proof.
  apply (X9_matrix_add_edge_changes_only_its_cells Demo.main_graph _ 1 3
           (Py.Int 9) 1 3);
    [apply demo_main_graph_reachable | by vm_compute
    | vm_compute; by split | vm_compute; by split].
Defined.

(** After [add_edge(1, 3, 9)] on the graph of [main], the cell of the edge
    reads 9.0 and the cell at [(0, 2)] reads what it did. *)
Example main_add_edge_cells :
  (AdjacencyMatrixGraph.get_edge_weight 1 3
     (AdjacencyMatrixGraph.add_edge 1 3 (Py.Int 9) Demo.main_graph).1).2
  = Py.float_of_int 9
  /\ (AdjacencyMatrixGraph.get_edge_weight 0 2
        (AdjacencyMatrixGraph.add_edge 1 3 (Py.Int 9) Demo.main_graph).1).2
     = (AdjacencyMatrixGraph.get_edge_weight 0 2 Demo.main_graph).2.
Proof. split; by vm_compute. Qed.

(** X10. Adjacency set, on a graph built through the constructor and
    [add_edge]: after [add_edge(v1, v2, w)] has returned, [x] appears in
    [get_adjacent_vertices(u)] exactly when it did before the call, or the
    pair [(u, x)] is [(v1, v2)], or the graph is undirected and the pair is
    [(v2, v1)]. *)
Theorem X10_set_add_edge_adds_only_its_edge
    (g g' : AdjacencySetGraph.t) (v1 v2 w u x : Z) :
  AdjacencySetGraph.reachable g ->
  AdjacencySetGraph.add_edge v1 v2 w g = (g', inr tt) ->
  0 <= u < AdjacencySetGraph.nbvertices g ->
  Inv.appears_in_adjacent AdjacencySetGraph.get_adjacent_vertices g' u x
  = Inv.appears_in_adjacent AdjacencySetGraph.get_adjacent_vertices g u x
    || bool_decide ((u = v1 /\ x = v2)
                    \/ (AdjacencySetGraph.directed g = false
                        /\ u = v2 /\ x = v1)).
Proof.
  intros Hreach Hcall Hu. apply set_reachable_wf in Hreach as Hwf.
  assert (Inv.set_wf g') as Hwf'.
  { replace g' with (AdjacencySetGraph.add_edge v1 v2 w g).1
      by (by rewrite Hcall).
    by apply set_wf_add_edge. }
  destruct (set_add_edge_returns g g' v1 v2 w Hwf Hcall)
    as ([Hv1 Hv2] & _ & H12 & Hg').
  assert (AdjacencySetGraph.nbvertices g' = AdjacencySetGraph.nbvertices g)
    as Hnb by (subst g'; by destruct (AdjacencySetGraph.directed g)).
  unfold Inv.appears_in_adjacent, Py.contains.
  rewrite !set_get_adjacent_vertices_eq by done. rewrite Hnb.
  rewrite !bool_decide_eq_true_2 by done. simpl.
  rewrite <- bool_decide_or. apply bool_decide_ext.
  rewrite !sorted_contains. subst g'.
  apply set_adjacency_added; (done || lia).
Qed.

Lemma X10_witness :
  Inv.appears_in_adjacent AdjacencySetGraph.get_adjacent_vertices
    (AdjacencySetGraph.add_edge 0 2 1 Demo.star_set).1 2 0
  = Inv.appears_in_adjacent AdjacencySetGraph.get_adjacent_vertices
      Demo.star_set 2 0
    || bool_decide ((2 = 0 /\ 0 = 2)
                    \/ (AdjacencySetGraph.directed Demo.star_set = false
                        /\ 2 = 2 /\ 0 = 0)).
Proof.
  apply (X10_set_add_edge_adds_only_its_edge Demo.star_set _ 0 2 1 2 0);
    [apply demo_star_set_reachable | by vm_compute | vm_compute; by split].
Defined.

Lemma matrix_store_overwrite (g : AdjacencyMatrixGraph.t) (i j : Z)
    (x y : Py.float64) :
  Inv.store (Inv.store g i j x) i j y = Inv.store g i j y.
Proof.
  unfold Inv.store, AdjacencyMatrixGraph.set_matrix; simpl. f_equal.
  rewrite list_alter_alter_eq. apply list_alter_ext; [|done].
  intros row _. simpl. apply list_insert_insert_eq.
Qed.

(** X11. Adjacency matrix, on a graph built through the constructor and
    [add_edge]: the last weight wins.  A call [add_edge(v1, v2, w2)] with a
    weight that is not below 1 and that a float64 cell can take (a float, or
    an integer that does not overflow), made after a call
    [add_edge(v1, v2, w1)], whatever that one did, ends as it does when made
    alone. *)
Theorem X11_matrix_add_edge_overwrites
    (g : AdjacencyMatrixGraph.t) (v1 v2 : Z) (w1 w2 : Py.number)
    (x2 : Py.float64) :
  AdjacencyMatrixGraph.reachable g ->
  Py.lt_one w2 = false ->
  Py.to_float64 w2 = inr x2 ->
  AdjacencyMatrixGraph.add_edge v1 v2 w2
    (AdjacencyMatrixGraph.add_edge v1 v2 w1 g).1
  = AdjacencyMatrixGraph.add_edge v1 v2 w2 g.
Proof.
  intros Hreach Hw2 Hx2. apply matrix_reachable_wf in Hreach as Hwf.
  destruct (matrix_add_edge_state g v1 v2 w1 Hwf)
    as [->|(x1 & [Hv1 Hv2] & Hw1 & Hx1 & Heq)]; [done|].
  rewrite Heq. cbn [fst].
  destruct (matrix_added_wf g v1 v2 x1 Hwf) as (Hwf1 & Hnb & Hd).
  rewrite (matrix_add_edge_accepted _ v1 v2 w2 x2)
    by (done || (rewrite Hnb; done)).
  rewrite (matrix_add_edge_accepted g v1 v2 w2 x2) by done.
  rewrite Hd. f_equal.
  destruct (AdjacencyMatrixGraph.directed g).
  - apply matrix_store_overwrite.
  - destruct (decide (v1 = v2)) as [->|Hne].
    + by rewrite !matrix_store_overwrite.
    + rewrite (matrix_store_comm (Inv.store g v1 v2 x1) v2 v1 x1 v1 v2 x2)
        by lia.
      by rewrite !matrix_store_overwrite.
Qed.

Lemma X11_witness :
  AdjacencyMatrixGraph.add_edge 0 2 (Py.Int 9)
    (AdjacencyMatrixGraph.add_edge 0 2 (Py.Int 7) Demo.undirected_matrix).1
  = AdjacencyMatrixGraph.add_edge 0 2 (Py.Int 9) Demo.undirected_matrix.
Proof.
  apply (X11_matrix_add_edge_overwrites Demo.undirected_matrix 0 2
           (Py.Int 7) (Py.Int 9) (S754_finite false 5066549580791808 (-49)));
    [apply demo_undirected_matrix_reachable | reflexivity | by vm_compute].
Defined.

(** With a second weight too large for a float64 the second call raises
    [OverflowError], and the state it leaves is the one of the first call,
    not the one the second call leaves when made alone. *)
Example overflowing_weight_does_not_overwrite :
  AdjacencyMatrixGraph.add_edge 0 2 (Py.Int (10 ^ 400))
    (AdjacencyMatrixGraph.add_edge 0 2 (Py.Int 5) Demo.undirected_matrix).1
  = ((AdjacencyMatrixGraph.add_edge 0 2 (Py.Int 5) Demo.undirected_matrix).1,
     inl OverflowError)
  /\ AdjacencyMatrixGraph.add_edge 0 2 (Py.Int (10 ^ 400))
       Demo.undirected_matrix
     = (Demo.undirected_matrix, inl OverflowError)
  /\ (AdjacencyMatrixGraph.add_edge 0 2 (Py.Int 5) Demo.undirected_matrix).1
     <> Demo.undirected_matrix.
Proof. split_and!; by vm_compute. Qed.

(** ** Order of the calls *)

Lemma set_node_with_comm (x y : Z) (node : Node.t) :
  Inv.node_with x (Inv.node_with y node) = Inv.node_with y (Inv.node_with x node).
Proof.
  unfold Inv.node_with; simpl. f_equal.
  by rewrite !(assoc_L (∪)), (comm_L (∪) {[x]}).
Qed.

Lemma set_link_swap (g : AdjacencySetGraph.t) (v x u y : Z) :
  Inv.link (Inv.link g v x) u y = Inv.link (Inv.link g u y) v x.
Proof.
  destruct (decide (Z.to_nat v = Z.to_nat u)) as [Heq|Hne];
    [|by apply set_link_comm].
  unfold Inv.link, AdjacencySetGraph.set_vertex_list; simpl. f_equal.
  rewrite Heq, !list_alter_alter_eq. apply list_alter_ext; [|done].
  intros node _. simpl. apply set_node_with_comm.
Qed.

Lemma set_add_edge_fst (g : AdjacencySetGraph.t) (v1 v2 weight : Z) :
  Inv.set_wf g ->
  (AdjacencySetGraph.add_edge v1 v2 weight g).1
  = if bool_decide (0 <= v1 < AdjacencySetGraph.nbvertices g
                    /\ 0 <= v2 < AdjacencySetGraph.nbvertices g)
       && (weight =? 1) && negb (bool_decide (v1 = v2))
    then (if AdjacencySetGraph.directed g then Inv.link g v1 v2
          else Inv.link (Inv.link g v1 v2) v2 v1)
    else g.
Proof.
  intros Hwf. rewrite set_add_edge_eq by done.
  case_bool_decide; simpl; [|done].
  destruct (weight =? 1); simpl; [|done].
  case_bool_decide; simpl; [done|].
  by destruct (AdjacencySetGraph.directed g).
Qed.

Lemma set_add_edge_keeps_fields (g : AdjacencySetGraph.t) (v1 v2 weight : Z) :
  Inv.set_wf g ->
  AdjacencySetGraph.nbvertices (AdjacencySetGraph.add_edge v1 v2 weight g).1
    = AdjacencySetGraph.nbvertices g
  /\ AdjacencySetGraph.directed (AdjacencySetGraph.add_edge v1 v2 weight g).1
    = AdjacencySetGraph.directed g.
Proof.
  intros Hwf. rewrite set_add_edge_fst by done.
  destruct (_ && _ && _); [|done].
  by destruct (AdjacencySetGraph.directed g) eqn:Hd.
Qed.

(** X12. Adjacency set, on a graph built through the constructor and
    [add_edge]: two calls of [add_edge] leave the same graph in either
    order, whatever their arguments and whether they return or raise. *)
Theorem X12_set_add_edge_order_independent
    (g : AdjacencySetGraph.t) (a b w c d w' : Z) :
  AdjacencySetGraph.reachable g ->
  (AdjacencySetGraph.add_edge a b w
     (AdjacencySetGraph.add_edge c d w' g).1).1
  = (AdjacencySetGraph.add_edge c d w'
       (AdjacencySetGraph.add_edge a b w g).1).1.
Proof.
  intros Hreach. apply set_reachable_wf in Hreach as Hwf.
  destruct (set_add_edge_keeps_fields g c d w' Hwf) as [Hn1 Hd1].
  destruct (set_add_edge_keeps_fields g a b w Hwf) as [Hn2 Hd2].
  rewrite (set_add_edge_fst (AdjacencySetGraph.add_edge c d w' g).1 a b w)
    by (by apply set_wf_add_edge).
  rewrite (set_add_edge_fst (AdjacencySetGraph.add_edge a b w g).1 c d w')
    by (by apply set_wf_add_edge).
  rewrite Hn1, Hd1, Hn2, Hd2. rewrite !(set_add_edge_fst g) by done.
  set (okab := bool_decide (0 <= a < _ /\ 0 <= b < _) && (w =? 1) && _).
  set (okcd := bool_decide (0 <= c < _ /\ 0 <= d < _) && (w' =? 1) && _).
  destruct okab, okcd, (AdjacencySetGraph.directed g); try done.
  - apply set_link_swap.
  - rewrite (set_link_swap (Inv.link g c d) d c a b).
    rewrite (set_link_swap g c d a b).
    rewrite (set_link_swap (Inv.link (Inv.link g a b) c d) d c b a).
    by rewrite (set_link_swap (Inv.link g a b) c d b a).
Qed.

Lemma X12_witness :
  (AdjacencySetGraph.add_edge 0 2 1
     (AdjacencySetGraph.add_edge 2 3 1 Demo.star_set).1).1
  = (AdjacencySetGraph.add_edge 2 3 1
       (AdjacencySetGraph.add_edge 0 2 1 Demo.star_set).1).1.
Proof.
  apply (X12_set_add_edge_order_independent Demo.star_set 0 2 1 2 3 1).
  apply demo_star_set_reachable.
Defined.

(** ** What the calls never change *)

Lemma for_each_keeps_state {S A B : Type} (xs : list A)
    (body : A -> B -> Py.M S B) (s : S) :
  (forall x acc, (body x acc s).1 = s) ->
  forall acc, (Py.for_each xs body acc s).1 = s.
Proof.
  intros Hbody. induction xs as [|x xs IH]; intros acc; simpl; [done|].
  unfold Py.bind. specialize (Hbody x acc).
  destruct (body x acc s) as [s' [e|acc']]; simpl in *; subst s'; [done|].
  apply IH.
Qed.

Lemma set_get_adjacent_vertices_keeps_state (g : AdjacencySetGraph.t) (v : Z) :
  (AdjacencySetGraph.get_adjacent_vertices v g).1 = g.
Proof.
  unfold AdjacencySetGraph.get_adjacent_vertices. py_unfold.
  destruct ((v <? 0) || (v >=? AdjacencySetGraph.nbvertices g)); [done|].
  unfold AdjacencySetGraph.at_vertex.
  destruct (Py.index _ v) as [e|k]; [done|].
  destruct (AdjacencySetGraph.vertex_list g !! k) as [node|] eqn:Hk; [|done].
  unfold Node.get_adjacent_vertices. py_unfold.
  by rewrite list_insert_id, set_vertex_list_id.
Qed.

(** X13. The queries never change the graph.  For every state of either
    representation and every argument, in or out of bounds,
    [get_adjacent_vertices], [get_indegree] and [get_edge_weight] leave the
    graph as it was, whether they return or raise. *)
Theorem X13_queries_keep_the_graph :
  (forall (g : AdjacencySetGraph.t) (v v' : Z),
      (AdjacencySetGraph.get_adjacent_vertices v g).1 = g
      /\ (AdjacencySetGraph.get_indegree v g).1 = g
      /\ (AdjacencySetGraph.get_edge_weight v v' g).1 = g)
  /\ (forall (g : AdjacencyMatrixGraph.t) (v v' : Z),
      (AdjacencyMatrixGraph.get_adjacent_vertices v g).1 = g
      /\ (AdjacencyMatrixGraph.get_indegree v g).1 = g
      /\ (AdjacencyMatrixGraph.get_edge_weight v v' g).1 = g).
Proof.
  split; intros g v v'; split_and!; try done.
  - apply set_get_adjacent_vertices_keeps_state.
  - unfold AdjacencySetGraph.get_indegree.
    unfold Py.bind at 1. unfold Py.gets at 1.
    destruct ((v <? 0) || (v >=? AdjacencySetGraph.nbvertices g)); [done|].
    unfold Py.bind at 1. unfold Py.gets at 1.
    apply for_each_keeps_state. intros i acc. unfold Py.bind.
    pose proof (set_get_adjacent_vertices_keeps_state g i) as Hi.
    destruct (AdjacencySetGraph.get_adjacent_vertices i g) as [s' [e|l]];
      simpl in *; subst s'; [done|].
    by destruct (Py.contains v l).
  - unfold AdjacencyMatrixGraph.get_adjacent_vertices.
    unfold Py.bind at 1. unfold Py.gets at 1.
    destruct ((v <? 0) || (v >=? AdjacencyMatrixGraph.nbvertices g)); [done|].
    unfold Py.bind at 1. unfold Py.gets at 1.
    apply for_each_keeps_state. intros i acc.
    unfold Py.bind, AdjacencyMatrixGraph.matrix_get.
    destruct (match Py.getitem _ v with inr row => _ | inl e => _ end)
      as [e|x]; simpl; [done|].
    by destruct (Py.gt_zero x).
  - unfold AdjacencyMatrixGraph.get_indegree.
    unfold Py.bind at 1. unfold Py.gets at 1.
    destruct ((v <? 0) || (v >=? AdjacencyMatrixGraph.nbvertices g)); [done|].
    unfold Py.bind at 1. unfold Py.gets at 1.
    apply for_each_keeps_state. intros i acc.
    unfold Py.bind, AdjacencyMatrixGraph.matrix_get.
    destruct (match Py.getitem _ i with inr row => _ | inl e => _ end)
      as [e|x]; simpl; [done|].
    by destruct (Py.gt_zero x).
Qed.

(** ** Degrees *)

Lemma set_appears_in_adjacent (g : AdjacencySetGraph.t) (u x : Z) :
  Inv.set_wf g -> 0 <= u < AdjacencySetGraph.nbvertices g ->
  Inv.appears_in_adjacent AdjacencySetGraph.get_adjacent_vertices g u x
  = bool_decide (x ∈ Inv.adjacency g u).
Proof.
  intros Hwf Hu. unfold Inv.appears_in_adjacent, Py.contains.
  rewrite set_get_adjacent_vertices_eq by done.
  rewrite bool_decide_eq_true_2 by done. simpl.
  apply bool_decide_ext, sorted_contains.
Qed.

Lemma filter_members (l : list Z) (n : Z) :
  StronglySorted Z.lt l -> (forall x, x ∈ l -> 0 <= x < n) ->
  List.filter (fun u => bool_decide (u ∈ l)) (Py.range n) = l.
Proof.
  intros Hl Hin. apply strictly_sorted_unique; [|done|].
  - apply filter_strictly, range_strictly.
  - intros x. rewrite list_elem_of_In, filter_In, <- list_elem_of_In.
    unfold Py.range. rewrite elem_of_seqZ, bool_decide_eq_true.
    split; [by intros [_ ?]|]. intros Hx. split; [|done].
    specialize (Hin x Hx). lia.
Qed.

Lemma filter_length_bound (p : Z -> bool) (l : list Z) :
  (length (List.filter p l) <= length l)%nat.
Proof.
  induction l as [|y l IH]; simpl; [done|]. destruct (p y); simpl; lia.
Qed.

Lemma filter_length_strict (p : Z -> bool) (l : list Z) (x : Z) :
  x ∈ l -> p x = false -> (length (List.filter p l) < length l)%nat.
Proof.
  induction l as [|y l IH]; intros Hx Hp; [by apply elem_of_nil in Hx|].
  apply elem_of_cons in Hx as [->|Hx]; simpl.
  - rewrite Hp. pose proof (filter_length_bound p l). lia.
  - specialize (IH Hx Hp). destruct (p y); simpl; lia.
Qed.

(** X14. In an undirected graph built through the constructor and
    [add_edge], of either representation, the indegree of an in-bounds
    vertex is the number of its adjacent vertices: [get_indegree(v)] returns
    the length of what [get_adjacent_vertices(v)] returns. *)
Theorem X14_undirected_indegree_is_degree :
  (forall (g : AdjacencySetGraph.t) (v : Z),
      AdjacencySetGraph.reachable g ->
      AdjacencySetGraph.directed g = false ->
      0 <= v < AdjacencySetGraph.nbvertices g ->
      exists l,
        AdjacencySetGraph.get_adjacent_vertices v g = (g, inr l)
        /\ AdjacencySetGraph.get_indegree v g
           = (g, inr (Z.of_nat (length l))))
  /\ (forall (g : AdjacencyMatrixGraph.t) (v : Z),
      AdjacencyMatrixGraph.reachable g ->
      AdjacencyMatrixGraph.directed g = false ->
      0 <= v < AdjacencyMatrixGraph.nbvertices g ->
      exists l,
        AdjacencyMatrixGraph.get_adjacent_vertices v g = (g, inr l)
        /\ AdjacencyMatrixGraph.get_indegree v g
           = (g, inr (Z.of_nat (length l)))).
Proof.
  split.
  - intros g v Hreach Hd Hv. apply set_reachable_wf in Hreach as Hwf.
    rewrite set_get_adjacent_vertices_eq by done.
    rewrite bool_decide_eq_true_2 by done.
    eexists. split; [done|].
    rewrite set_get_indegree_eq by done. unfold Inv.count_sources.
    do 4 f_equal.
    etrans; [|apply (filter_members (Py.sorted (Inv.adjacency g v))
                       (AdjacencySetGraph.nbvertices g))].
    + apply filter_ext_in. intros u Hu.
      apply list_elem_of_In, elem_of_seqZ in Hu.
      rewrite set_appears_in_adjacent by (done || lia).
      apply bool_decide_ext. rewrite sorted_contains. split; intros Hin.
      * by apply (set_reachable_adjacency g Hreach u v); [lia|..].
      * by apply (set_reachable_adjacency g Hreach v u); [lia|..].
    + apply sorted_strictly.
    + intros x Hx. apply sorted_contains in Hx.
      by apply (set_reachable_adjacency g Hreach v x); [lia|].
  - intros g v Hreach Hd Hv. apply matrix_reachable_wf in Hreach as Hwf.
    rewrite matrix_get_adjacent_vertices_eq by done.
    rewrite bool_decide_eq_true_2 by done.
    eexists. split; [done|].
    rewrite matrix_get_indegree_eq by done. unfold Inv.count_sources.
    do 4 f_equal.
    apply filter_ext_in. intros u Hu.
    apply list_elem_of_In, elem_of_seqZ in Hu.
    rewrite matrix_appears_in_adjacent by (done || lia). f_equal.
    by apply (matrix_reachable_cells g Hreach u v); [lia..|].
Qed.

Lemma X14_witness :
  (exists l,
     AdjacencySetGraph.get_adjacent_vertices 1 Demo.star_set
       = (Demo.star_set, inr l)
     /\ AdjacencySetGraph.get_indegree 1 Demo.star_set
        = (Demo.star_set, inr (Z.of_nat (length l))))
  /\ (exists l,
     AdjacencyMatrixGraph.get_adjacent_vertices 0 Demo.undirected_matrix
       = (Demo.undirected_matrix, inr l)
     /\ AdjacencyMatrixGraph.get_indegree 0 Demo.undirected_matrix
        = (Demo.undirected_matrix, inr (Z.of_nat (length l)))).
Proof.
  destruct X14_undirected_indegree_is_degree as [Hs Hm]. split.
  - apply Hs;
      [apply demo_star_set_reachable | reflexivity | vm_compute; by split].
  - apply Hm;
      [apply demo_undirected_matrix_reachable | reflexivity
      | vm_compute; by split].
Defined.

(** X15. On a graph built through the constructor and [add_edge], the
    indegree of an in-bounds vertex is at least 0 and at most [N - 1] in the
    adjacency set, where a vertex is never adjacent to itself, and at most
    [N] in the adjacency matrix. *)
Theorem X15_indegree_bounds :
  (forall (g : AdjacencySetGraph.t) (v : Z),
      AdjacencySetGraph.reachable g ->
      0 <= v < AdjacencySetGraph.nbvertices g ->
      exists k,
        AdjacencySetGraph.get_indegree v g = (g, inr k)
        /\ 0 <= k <= AdjacencySetGraph.nbvertices g - 1)
  /\ (forall (g : AdjacencyMatrixGraph.t) (v : Z),
      AdjacencyMatrixGraph.reachable g ->
      0 <= v < AdjacencyMatrixGraph.nbvertices g ->
      exists k,
        AdjacencyMatrixGraph.get_indegree v g = (g, inr k)
        /\ 0 <= k <= AdjacencyMatrixGraph.nbvertices g).
Proof.
  split.
  - intros g v Hreach Hv. apply set_reachable_wf in Hreach as Hwf.
    rewrite set_get_indegree_eq by done. eexists. split; [done|].
    unfold Inv.count_sources.
    assert (length (Py.range (AdjacencySetGraph.nbvertices g))
            = Z.to_nat (AdjacencySetGraph.nbvertices g)) as Hlen
      by apply length_seqZ.
    assert (length (List.filter
              (fun u => Inv.appears_in_adjacent
                          AdjacencySetGraph.get_adjacent_vertices g u v)
              (Py.range (AdjacencySetGraph.nbvertices g)))
            < length (Py.range (AdjacencySetGraph.nbvertices g)))%nat as Hlt.
    { apply (filter_length_strict _ _ v).
      - apply elem_of_seqZ. lia.
      - rewrite set_appears_in_adjacent by done.
        apply bool_decide_eq_false_2. intros Hin.
        by destruct (set_reachable_adjacency g Hreach v v)
          as [(_ & _ & ?) _]; [lia|done|]. }
    lia.
  - intros g v Hreach Hv. apply matrix_reachable_wf in Hreach as Hwf.
    rewrite matrix_get_indegree_eq by done. eexists. split; [done|].
    unfold Inv.count_sources.
    assert (length (Py.range (AdjacencyMatrixGraph.nbvertices g))
            = Z.to_nat (AdjacencyMatrixGraph.nbvertices g)) as Hlen
      by apply length_seqZ.
    pose proof (filter_length_bound
      (fun u => Inv.appears_in_adjacent
                  AdjacencyMatrixGraph.get_adjacent_vertices g u v)
      (Py.range (AdjacencyMatrixGraph.nbvertices g))).
    lia.
Qed.

Lemma X15_witness :
  (exists k,
     AdjacencySetGraph.get_indegree 1 Demo.star_set = (Demo.star_set, inr k)
     /\ 0 <= k <= AdjacencySetGraph.nbvertices Demo.star_set - 1)
  /\ (exists k,
     AdjacencyMatrixGraph.get_indegree 3 Demo.main_graph
       = (Demo.main_graph, inr k)
     /\ 0 <= k <= AdjacencyMatrixGraph.nbvertices Demo.main_graph).
Proof.
  destruct X15_indegree_bounds as [Hs Hm]. split.
  - apply Hs; [apply demo_star_set_reachable | vm_compute; by split].
  - apply Hm; [apply demo_main_graph_reachable | vm_compute; by split].
Defined.

(** ** The edge listing *)

Lemma for_each_writes {S A : Type} (xs : list A)
    (body : A -> unit -> Py.M (S * Py.stdout) unit) (f : A -> list string)
    (s : S) :
  (forall x out, x ∈ xs -> body x tt (s, out) = ((s, out ++ f x), inr tt)) ->
  forall out,
    Py.for_each xs body tt (s, out) = ((s, out ++ (xs ≫= f)), inr tt).
Proof.
  induction xs as [|x xs IH]; intros Hbody out; simpl.
  - by rewrite app_nil_r.
  - unfold Py.bind. rewrite Hbody by left.
    rewrite IH by (intros y o Hy; apply Hbody; by right).
    by rewrite <- app_assoc.
Qed.

Lemma for_each_print {S : Type} (sep : string) (i : Z) (adj : list Z)
    (s : S) (out : Py.stdout) :
  Py.for_each adj (fun v _ => Py.print_sep sep i v) tt (s, out)
  = ((s, out ++ ((fun v => Py.str i +:+ sep +:+ Py.str v) <$> adj)), inr tt).
Proof.
  rewrite (for_each_writes adj _
             (fun v => [Py.str i +:+ sep +:+ Py.str v])); [|done].
  reflexivity.
Qed.

Lemma display_loop {S : Type} (get_adjacent_vertices : Z -> Py.M S (list Z))
    (g : S) (n : Z) (out : Py.stdout) :
  (forall i, 0 <= i < n ->
     exists l, get_adjacent_vertices i g = (g, inr l)) ->
  Py.for_each (Py.range n)
    (fun i _ =>
       adj <- Py.with_self (get_adjacent_vertices i) ;;
       Py.for_each adj (fun v _ => Py.print_sep "-->" i v) tt)
    tt (g, out)
  = ((g, out ++ Both.edge_lines n (Both.adjacent_of get_adjacent_vertices g)),
     inr tt).
Proof.
  intros Hadj. unfold Both.edge_lines.
  apply (for_each_writes (Py.range n) _
           (fun i => (fun v => Py.str i +:+ "-->" +:+ Py.str v)
                       <$> Both.adjacent_of get_adjacent_vertices g i)).
  intros i o Hi. apply elem_of_seqZ in Hi.
  destruct (Hadj i) as [l Hl]; [lia|].
  unfold Py.bind, Py.with_self, Both.adjacent_of. rewrite Hl. simpl.
  apply for_each_print.
Qed.

(** X16. On a graph built through the constructor and [add_edge], of either
    representation, [display()] returns without raising, leaves the graph as
    it was, and writes one line [i-->v] per edge after what was written
    before: the sources [i] in ascending order and, for each, the vertices
    [v] in the order of [get_adjacent_vertices(i)]. *)
Theorem X16_display_lists_the_edges :
  (forall (g : AdjacencySetGraph.t) (out : Py.stdout),
      AdjacencySetGraph.reachable g ->
      AdjacencySetGraph.display (g, out)
      = ((g, out ++ Both.edge_lines (AdjacencySetGraph.nbvertices g)
                      (Both.adjacent_of
                         AdjacencySetGraph.get_adjacent_vertices g)),
         inr tt))
  /\ (forall (g : AdjacencyMatrixGraph.t) (out : Py.stdout),
      AdjacencyMatrixGraph.reachable g ->
      AdjacencyMatrixGraph.display (g, out)
      = ((g, out ++ Both.edge_lines (AdjacencyMatrixGraph.nbvertices g)
                      (Both.adjacent_of
                         AdjacencyMatrixGraph.get_adjacent_vertices g)),
         inr tt)).
Proof.
  split.
  - intros g out Hreach. apply set_reachable_wf in Hreach as Hwf.
    unfold AdjacencySetGraph.display.
    unfold Py.bind at 1. unfold Py.with_self at 1, Py.gets. simpl.
    apply display_loop. intros i Hi.
    rewrite set_get_adjacent_vertices_eq by done.
    rewrite bool_decide_eq_true_2 by done. by eexists.
  - intros g out Hreach. apply matrix_reachable_wf in Hreach as Hwf.
    unfold AdjacencyMatrixGraph.display.
    unfold Py.bind at 1. unfold Py.with_self at 1, Py.gets. simpl.
    apply display_loop. intros i Hi.
    rewrite matrix_get_adjacent_vertices_eq by done.
    rewrite bool_decide_eq_true_2 by done. by eexists.
Qed.

Lemma X16_witness :
  AdjacencySetGraph.display (Demo.star_set, [])
    = ((Demo.star_set,
        [] ++ Both.edge_lines (AdjacencySetGraph.nbvertices Demo.star_set)
                (Both.adjacent_of AdjacencySetGraph.get_adjacent_vertices
                   Demo.star_set)),
       inr tt)
  /\ AdjacencyMatrixGraph.display (Demo.main_graph, [])
    = ((Demo.main_graph,
        [] ++ Both.edge_lines (AdjacencyMatrixGraph.nbvertices Demo.main_graph)
                (Both.adjacent_of AdjacencyMatrixGraph.get_adjacent_vertices
                   Demo.main_graph)),
       inr tt).
Proof.
  destruct X16_display_lists_the_edges as [Hs Hm]. split.
  - apply Hs, demo_star_set_reachable.
  - apply Hm, demo_main_graph_reachable.
Defined.

(** The listing [main] ends with: the three edges, in this order. *)
Example main_display :
  AdjacencyMatrixGraph.display (Demo.main_graph, [])
  = ((Demo.main_graph, ["0-->1"; "0-->2"; "2-->3"]), inr tt).
Proof. by vm_compute. Qed.

(** ** The two representations agree *)

Lemma built_alike_agree (gs : AdjacencySetGraph.t) (gm : AdjacencyMatrixGraph.t) :
  Both.built_alike gs gm ->
  AdjacencySetGraph.reachable gs
  /\ AdjacencyMatrixGraph.reachable gm
  /\ AdjacencySetGraph.nbvertices gs = AdjacencyMatrixGraph.nbvertices gm
  /\ AdjacencySetGraph.directed gs = AdjacencyMatrixGraph.directed gm
  /\ forall u x : Z,
       0 <= u < AdjacencySetGraph.nbvertices gs ->
       0 <= x < AdjacencySetGraph.nbvertices gs ->
       (x ∈ Inv.adjacency gs u <-> Py.gt_zero (Inv.cell gm u x) = true).
Proof.
  assert (Py.to_float64 (Py.Int 1) = inr Py.fone) as Hone by (by vm_compute).
  assert (Py.gt_zero Py.fone = true) as Hpos by (by vm_compute).
  induction 1 as [n d gm Hinit|gs gm v1 v2 Halike IH Hne].
  - split_and!.
    + apply AdjacencySetGraph.reachable_init.
    + by apply (AdjacencyMatrixGraph.reachable_init n d).
    + unfold AdjacencyMatrixGraph.init in Hinit.
      destruct (AdjacencyMatrixGraph.zeros n n); [done|].
      by injection Hinit as <-.
    + unfold AdjacencyMatrixGraph.init in Hinit.
      destruct (AdjacencyMatrixGraph.zeros n n); [done|].
      by injection Hinit as <-.
    + intros u x _ _. rewrite set_adjacency_init, (matrix_cell_init n d) by done.
      split; [by intros ?%elem_of_empty|by vm_compute].
  - destruct IH as (Hrs & Hrm & Hnb & Hdir & Hadj).
    apply set_reachable_wf in Hrs as Hwfs.
    apply matrix_reachable_wf in Hrm as Hwfm.
    split; [by apply AdjacencySetGraph.reachable_add_edge|].
    split; [by apply AdjacencyMatrixGraph.reachable_add_edge|].
    rewrite set_add_edge_fst by done. rewrite matrix_add_edge_eq by done.
    rewrite Hone. change (Py.lt_one (Py.Int 1)) with false. cbv iota.
    rewrite <- Hnb, <- Hdir. change (1 =? 1) with true.
    rewrite (bool_decide_eq_false_2 (v1 = v2)) by done. cbn [negb].
    rewrite !andb_true_r.
    case_bool_decide as Hb; cbn [negb fst]; [|by split_and!].
    destruct Hb as [Hv1 Hv2].
    pose proof (matrix_wf_store gm v1 v2 Py.fone Hwfm) as Hwfm1.
    destruct (AdjacencySetGraph.directed gs) eqn:Hd; simpl;
      (split_and!; [done|congruence|]); intros u x Hu Hx.
    + pose proof (set_adjacency_added gs v1 v2 u x Hwfs Hv1 Hv2) as Hs.
      rewrite Hd in Hs. rewrite Hs by lia.
      rewrite matrix_cell_store by (simpl; first [done | lia]).
      rewrite Hadj by done. case_bool_decide; rewrite ?Hpos; naive_solver lia.
    + pose proof (set_adjacency_added gs v1 v2 u x Hwfs Hv1 Hv2) as Hs.
      rewrite Hd in Hs. rewrite Hs by lia.
      rewrite !matrix_cell_store by (simpl; first [done | lia]).
      rewrite Hadj by done.
      repeat case_bool_decide; rewrite ?Hpos; naive_solver lia.
Qed.

Lemma built_alike_adjacent (gs : AdjacencySetGraph.t)
    (gm : AdjacencyMatrixGraph.t) (v : Z) :
  Both.built_alike gs gm ->
  (AdjacencySetGraph.get_adjacent_vertices v gs).2
  = (AdjacencyMatrixGraph.get_adjacent_vertices v gm).2.
Proof.
  intros Halike.
  destruct (built_alike_agree gs gm Halike) as (Hrs & Hrm & Hnb & Hdir & Hadj).
  apply set_reachable_wf in Hrs as Hwfs.
  apply matrix_reachable_wf in Hrm as Hwfm.
  rewrite set_get_adjacent_vertices_eq by done.
  rewrite matrix_get_adjacent_vertices_eq by done. rewrite <- Hnb.
  case_bool_decide as Hv; simpl; [|done]. f_equal.
  apply strictly_sorted_unique.
  - apply sorted_strictly.
  - apply filter_strictly, range_strictly.
  - intros x. rewrite sorted_contains.
    rewrite list_elem_of_In, filter_In, <- list_elem_of_In.
    unfold Py.range. rewrite elem_of_seqZ. split.
    + intros Hx.
      assert (0 <= x < AdjacencySetGraph.nbvertices gs) as Hxb
        by (by apply (set_reachable_adjacency gs Hrs v x); [lia|]).
      split; [lia|]. by apply Hadj in Hx.
    + intros [Hxb Hpos]. apply Hadj; [done|lia|done].
Qed.

Lemma get_indegree_out_of_bounds :
  (forall (g : AdjacencySetGraph.t) (v : Z),
      ~ 0 <= v < AdjacencySetGraph.nbvertices g ->
      AdjacencySetGraph.get_indegree v g = (g, inl OutOfBounds))
  /\ (forall (g : AdjacencyMatrixGraph.t) (v : Z),
      ~ 0 <= v < AdjacencyMatrixGraph.nbvertices g ->
      AdjacencyMatrixGraph.get_indegree v g = (g, inl OutOfBounds)).
Proof.
  split; intros g v Hv.
  - unfold AdjacencySetGraph.get_indegree, Py.bind, Py.gets, Py.raise.
    rewrite bounds_check. by rewrite bool_decide_eq_false_2.
  - unfold AdjacencyMatrixGraph.get_indegree, Py.bind, Py.gets, Py.raise.
    rewrite bounds_check. by rewrite bool_decide_eq_false_2.
Qed.

(** X17. The two representations answer alike.  An adjacency-set graph and an
    adjacency-matrix graph constructed with the same arguments and given the
    same calls [add_edge(v1, v2)] between distinct vertices, in or out of
    bounds, return the same list from [get_adjacent_vertices(v)] and the same
    number from [get_indegree(v)], or raise the same error, for every [v],
    and [display()] writes the same lines. *)
Theorem X17_representations_agree
    (gs : AdjacencySetGraph.t) (gm : AdjacencyMatrixGraph.t)
    (v : Z) (out : Py.stdout) :
  Both.built_alike gs gm ->
  (AdjacencySetGraph.get_adjacent_vertices v gs).2
  = (AdjacencyMatrixGraph.get_adjacent_vertices v gm).2
  /\ (AdjacencySetGraph.get_indegree v gs).2
     = (AdjacencyMatrixGraph.get_indegree v gm).2
  /\ (AdjacencySetGraph.display (gs, out)).1.2
     = (AdjacencyMatrixGraph.display (gm, out)).1.2
  /\ (AdjacencySetGraph.display (gs, out)).2
     = (AdjacencyMatrixGraph.display (gm, out)).2.
Proof.
  intros Halike.
  destruct (built_alike_agree gs gm Halike) as (Hrs & Hrm & Hnb & Hdir & Hadj).
  apply set_reachable_wf in Hrs as Hwfs.
  apply matrix_reachable_wf in Hrm as Hwfm.
  assert (forall i,
    Both.adjacent_of AdjacencySetGraph.get_adjacent_vertices gs i
    = Both.adjacent_of AdjacencyMatrixGraph.get_adjacent_vertices gm i) as Hof.
  { intros i. unfold Both.adjacent_of. by rewrite (built_alike_adjacent gs gm). }
  split; [by apply built_alike_adjacent|]. split.
  - destruct (decide (0 <= v < AdjacencySetGraph.nbvertices gs)) as [Hv|Hv].
    + rewrite set_get_indegree_eq by done.
      rewrite matrix_get_indegree_eq by (done || lia). simpl. f_equal.
      unfold Inv.count_sources. rewrite <- Hnb. do 2 f_equal.
      apply filter_ext_in. intros u _. unfold Inv.appears_in_adjacent.
      by rewrite (built_alike_adjacent gs gm).
    + destruct get_indegree_out_of_bounds as [Hs Hm].
      rewrite Hs by done. by rewrite Hm by lia.
  - unfold AdjacencySetGraph.display, AdjacencyMatrixGraph.display.
    unfold Py.bind at 1 3 5 7. unfold Py.with_self at 1 3 5 7, Py.gets. simpl.
    rewrite !(display_loop AdjacencySetGraph.get_adjacent_vertices).
    2: { intros i Hi. rewrite set_get_adjacent_vertices_eq by done.
         rewrite bool_decide_eq_true_2 by done. by eexists. }
    rewrite !(display_loop AdjacencyMatrixGraph.get_adjacent_vertices).
    2: { intros i Hi. rewrite matrix_get_adjacent_vertices_eq by done.
         rewrite bool_decide_eq_true_2 by done. by eexists. }
    simpl. split; [|done]. rewrite <- Hnb. f_equal.
    unfold Both.edge_lines.
    apply list_bind_ext; [|done]. intros i. by rewrite Hof.
Qed.

Lemma X17_witness :
  (AdjacencySetGraph.get_adjacent_vertices 1
     (AdjacencySetGraph.add_edge 3 1 1 Demo.directed_set).1).2
  = (AdjacencyMatrixGraph.get_adjacent_vertices 1
       (AdjacencyMatrixGraph.add_edge 3 1 (Py.Int 1) Demo.directed_matrix).1).2
  /\ (AdjacencySetGraph.get_indegree 1
        (AdjacencySetGraph.add_edge 3 1 1 Demo.directed_set).1).2
     = (AdjacencyMatrixGraph.get_indegree 1
          (AdjacencyMatrixGraph.add_edge 3 1 (Py.Int 1) Demo.directed_matrix).1).2
  /\ (AdjacencySetGraph.display
        ((AdjacencySetGraph.add_edge 3 1 1 Demo.directed_set).1, [])).1.2
     = (AdjacencyMatrixGraph.display
          ((AdjacencyMatrixGraph.add_edge 3 1 (Py.Int 1) Demo.directed_matrix).1,
           [])).1.2
  /\ (AdjacencySetGraph.display
        ((AdjacencySetGraph.add_edge 3 1 1 Demo.directed_set).1, [])).2
     = (AdjacencyMatrixGraph.display
          ((AdjacencyMatrixGraph.add_edge 3 1 (Py.Int 1) Demo.directed_matrix).1,
           [])).2.
Proof.
  apply (X17_representations_agree _ _ 1 []).
  apply Both.alike_add_edge; [|lia].
  by apply (Both.alike_init 4 true).
Defined.

(** ** The shape of a constructed graph *)

Lemma matrix_add_edge_keeps_fields
    (g : AdjacencyMatrixGraph.t) (v1 v2 : Z) (weight : Py.number) :
  Inv.matrix_wf g ->
  AdjacencyMatrixGraph.nbvertices
    (AdjacencyMatrixGraph.add_edge v1 v2 weight g).1
    = AdjacencyMatrixGraph.nbvertices g
  /\ AdjacencyMatrixGraph.directed
       (AdjacencyMatrixGraph.add_edge v1 v2 weight g).1
     = AdjacencyMatrixGraph.directed g.
Proof.
  intros Hwf.
  destruct (matrix_add_edge_state g v1 v2 weight Hwf)
    as [->|(x & _ & _ & _ & ->)]; [done|].
  cbn [fst]. by destruct (matrix_added_wf g v1 v2 x Hwf) as (_ & -> & ->).
Qed.

(** X18. The shape of a graph built through the constructor and [add_edge]
    never changes.  An adjacency-set graph holds one node per vertex, the
    node at position [k] having identifier [k]; an adjacency-matrix graph
    holds [N] rows of [N] cells; and no call of [add_edge], returning or
    raising, changes the vertex count or the directedness. *)
Theorem X18_shape_is_kept :
  (forall (g : AdjacencySetGraph.t) (v1 v2 weight : Z),
      AdjacencySetGraph.reachable g ->
      length (AdjacencySetGraph.vertex_list g)
        = Z.to_nat (AdjacencySetGraph.nbvertices g)
      /\ (forall (k : nat) (node : Node.t),
            AdjacencySetGraph.vertex_list g !! k = Some node ->
            Node.vertexid node = Z.of_nat k)
      /\ AdjacencySetGraph.nbvertices
           (AdjacencySetGraph.add_edge v1 v2 weight g).1
         = AdjacencySetGraph.nbvertices g
      /\ AdjacencySetGraph.directed
           (AdjacencySetGraph.add_edge v1 v2 weight g).1
         = AdjacencySetGraph.directed g)
  /\ (forall (g : AdjacencyMatrixGraph.t) (v1 v2 : Z) (weight : Py.number),
      AdjacencyMatrixGraph.reachable g ->
      length (AdjacencyMatrixGraph.matrix g)
        = Z.to_nat (AdjacencyMatrixGraph.nbvertices g)
      /\ Forall
           (fun row =>
              length row = Z.to_nat (AdjacencyMatrixGraph.nbvertices g))
           (AdjacencyMatrixGraph.matrix g)
      /\ AdjacencyMatrixGraph.nbvertices
           (AdjacencyMatrixGraph.add_edge v1 v2 weight g).1
         = AdjacencyMatrixGraph.nbvertices g
      /\ AdjacencyMatrixGraph.directed
           (AdjacencyMatrixGraph.add_edge v1 v2 weight g).1
         = AdjacencyMatrixGraph.directed g).
Proof.
  split.
  - intros g v1 v2 weight Hreach. apply set_reachable_wf in Hreach as Hwf.
    destruct (set_add_edge_keeps_fields g v1 v2 weight Hwf) as [Hn Hd].
    destruct Hwf as [Hlen Hid]. by split_and!.
  - intros g v1 v2 weight Hreach. apply matrix_reachable_wf in Hreach as Hwf.
    destruct (matrix_add_edge_keeps_fields g v1 v2 weight Hwf) as [Hn Hd].
    destruct Hwf as (_ & Hlen & Hrows). by split_and!.
Qed.

Lemma X18_witness :
  (length (AdjacencySetGraph.vertex_list Demo.star_set)
     = Z.to_nat (AdjacencySetGraph.nbvertices Demo.star_set)
   /\ (forall (k : nat) (node : Node.t),
         AdjacencySetGraph.vertex_list Demo.star_set !! k = Some node ->
         Node.vertexid node = Z.of_nat k)
   /\ AdjacencySetGraph.nbvertices
        (AdjacencySetGraph.add_edge 0 2 1 Demo.star_set).1
      = AdjacencySetGraph.nbvertices Demo.star_set
   /\ AdjacencySetGraph.directed
        (AdjacencySetGraph.add_edge 0 2 1 Demo.star_set).1
      = AdjacencySetGraph.directed Demo.star_set)
  /\ (length (AdjacencyMatrixGraph.matrix Demo.main_graph)
        = Z.to_nat (AdjacencyMatrixGraph.nbvertices Demo.main_graph)
      /\ Forall
           (fun row =>
              length row
              = Z.to_nat (AdjacencyMatrixGraph.nbvertices Demo.main_graph))
           (AdjacencyMatrixGraph.matrix Demo.main_graph)
      /\ AdjacencyMatrixGraph.nbvertices
           (AdjacencyMatrixGraph.add_edge 9 9 (Py.Int 0) Demo.main_graph).1
         = AdjacencyMatrixGraph.nbvertices Demo.main_graph
      /\ AdjacencyMatrixGraph.directed
           (AdjacencyMatrixGraph.add_edge 9 9 (Py.Int 0) Demo.main_graph).1
         = AdjacencyMatrixGraph.directed Demo.main_graph).
Proof.
  destruct X18_shape_is_kept as [Hs Hm]. split.
  - apply Hs, demo_star_set_reachable.
  - apply Hm, demo_main_graph_reachable.
Defined.
